(** * Survey storage API: a shallow embedding of [routers/surveys.py] and
    [models.py].

    The two MongoDB collections ("surveys", "responses") are modelled as
    lists of documents in storage order; [find_one] returns the first
    document matching a filter, [replace_one] replaces the first match
    (inserting at the end under [upsert=True]), [insert_one] appends.
    Timestamps ([datetime]) are integers (an instant).  Behaviour of the
    Python/pydantic libraries that the handlers call (lax int coercion,
    [SurveyConfig(..)] validation, [datetime.fromisoformat], pydantic's
    datetime coercion) is taken as a parameter of the [Api] section, so
    every theorem holds for every such behaviour. *)

From Stdlib Require Import String Ascii List ZArith NArith Bool Lia.
From Stdlib Require Import Sorting.Permutation Sorting.Sorted.
Import ListNotations.
Open Scope string_scope.
#[local] Set Warnings "-register-all,-abstract-large-number".

(* ------------------------------------------------------------------ *)
(** ** Python values ([typing.Any]) and dictionaries *)

(** JSON-shaped Python values, as received in a request body. *)
Inductive value : Type :=
| VNull
| VBool (b : bool)
| VInt (z : Z)
| VStr (s : string)
| VList (l : list value)
| VDict (d : list (string * value)).

(** A [Dict[str, Any]]: keys are unique in a Python dict. *)
Definition dict := list (string * value).

(** [d[k]]: [None] is the [KeyError]. *)
Fixpoint dict_get (k : string) (d : dict) : option value :=
  match d with
  | [] => None
  | (k', v) :: d' => if String.eqb k k' then Some v else dict_get k d'
  end.

(** [d.get(k)]: a missing key gives [None] (Python's None). *)
Definition dict_get_default (k : string) (d : dict) : value :=
  match dict_get k d with Some v => v | None => VNull end.

(* ------------------------------------------------------------------ *)
(** ** [str()] of a Python [int] *)

Definition digit_char (n : N) : ascii :=
  ascii_of_N (48 + n).

Fixpoint dec_aux (fuel : nat) (n : N) (acc : string) : string :=
  match fuel with
  | O => acc
  | S f =>
      let acc' := String (digit_char (n mod 10)) acc in
      if (n <? 10)%N then acc' else dec_aux f (n / 10)%N acc'
  end.

Definition str_of_N (n : N) : string := dec_aux (S (N.size_nat n)) n "".

(** [str(z)] for a Python [int]. *)
Definition str_of_Z (z : Z) : string :=
  if (z <? 0)%Z then "-" ++ str_of_N (Z.abs_N z) else str_of_N (Z.to_N z).

(** [str.replace(old, new)] for a one-character [old], as used on
    timestamps ([.replace("Z", "+00:00")]). *)
Fixpoint replace_char (c : ascii) (new : string) (s : string) : string :=
  match s with
  | EmptyString => EmptyString
  | String c' s' =>
      if Ascii.eqb c c' then new ++ replace_char c new s'
      else String c' (replace_char c new s')
  end.

(* ------------------------------------------------------------------ *)
(** ** [models.py] *)

Definition datetime := Z.

Inductive QuestionType :=
| QT_text | QT_textarea | QT_number | QT_select | QT_radio | QT_checkbox
| QT_rating | QT_date.

Inductive ConditionOperator :=
| CO_equals | CO_notEquals | CO_in | CO_notIn | CO_gt | CO_lt
| CO_contains | CO_notContains | CO_isTruthy | CO_isFalsy.

Record Condition := {
  cond_questionId : string;
  cond_operator : ConditionOperator;
  cond_value : value }.

Record VisibilityRule := {
  vr_all : option (list Condition);
  vr_any : option (list Condition);
  vr_none : option (list Condition) }.

(** [min]/[max] are floats in the source; the integral part of the
    request values is what is modelled. *)
Record ValidationRules := {
  vrl_required : option bool;
  vrl_min : option Z;
  vrl_max : option Z;
  vrl_minLength : option Z;
  vrl_maxLength : option Z;
  vrl_pattern : option string;
  vrl_minSelected : option Z;
  vrl_maxSelected : option Z;
  vrl_maxStars : option Z }.

Record OptionItem := { opt_value : string; opt_label : string }.

Record Question := {
  q_id : string;
  q_type : QuestionType;
  q_label : string;
  q_description : option string;
  q_placeholder : option string;
  q_defaultValue : value;
  q_visibleIf : option VisibilityRule;
  q_validation : option ValidationRules;
  q_options : option (list OptionItem) }.

Record Section := {
  sec_id : string;
  sec_title : option string;
  sec_description : option string;
  sec_visibleIf : option VisibilityRule;
  sec_questions : list Question }.

Record SurveyConfig := {
  cfg_title : option string;
  cfg_description : option string;
  cfg_meta : option dict;
  cfg_sections : list Section }.

Record StoredVersion := {
  version : Z;
  versionId : string;
  config : SurveyConfig;
  prompt : option string;
  timestamp : datetime }.

Record StoredSurvey := {
  surveyId : string;
  createdAt : datetime;
  versions : list StoredVersion }.

Record UserSurveyResponse := {
  responseId : string;
  r_surveyId : string;
  r_versionId : string;
  respondentInfo : option dict;
  answers : dict;
  submittedAt : datetime;
  completionTime : option Z }.

Record CreateSurveyRequest := {
  cr_versions : list dict;
  cr_surveyId : option string }.

Record UpdateSurveyRequest := { ur_versions : list dict }.

Record SubmitSurveyResponseRequest := {
  sr_surveyId : string;
  sr_versionId : string;
  sr_respondentInfo : option dict;
  sr_answers : dict;
  sr_completionTime : option Z }.

Record SurveyResponse := {
  res_success : bool;
  res_survey : option StoredSurvey;
  res_message : option string }.

Record SubmitSurveyResponseResult := {
  sub_success : bool;
  sub_responseId : string;
  sub_message : option string }.

Record SurveyResponsesListResponse := {
  srl_success : bool;
  srl_responses : list UserSurveyResponse;
  srl_total : Z }.

(** Keyword arguments passed to the [SurveyResponsesListResponse]
    constructor. *)
Inductive kwarg :=
| KBool (b : bool)
| KResponses (l : list UserSurveyResponse)
| KInt (z : Z).

Fixpoint kw_get (k : string) (kw : list (string * kwarg)) : option kwarg :=
  match kw with
  | [] => None
  | (k', v) :: kw' => if String.eqb k k' then Some v else kw_get k kw'
  end.

(** Pydantic construction [SurveyResponsesListResponse(..)]: the three
    declared fields are required; unknown keywords are ignored (pydantic's
    default [extra="ignore"]); a missing field is a [ValidationError]
    ([None]). *)
Definition SurveyResponsesListResponse_new (kw : list (string * kwarg))
  : option SurveyResponsesListResponse :=
  match kw_get "success" kw, kw_get "responses" kw, kw_get "total" kw with
  | Some (KBool b), Some (KResponses l), Some (KInt t) =>
      Some {| srl_success := b; srl_responses := l; srl_total := t |}
  | _, _, _ => None
  end.

(* ------------------------------------------------------------------ *)
(** ** The database and the handlers' outcomes *)

Record db := { surveys : list StoredSurvey; responses : list UserSurveyResponse }.

Definition empty_db : db := {| surveys := []; responses := [] |}.

(** [collection.find_one({"surveyId": sid})]. *)
Fixpoint find_one (sid : string) (l : list StoredSurvey) : option StoredSurvey :=
  match l with
  | [] => None
  | s :: l' => if String.eqb (surveyId s) sid then Some s else find_one sid l'
  end.

(** [collection.replace_one({"surveyId": sid}, doc, upsert=up)]. *)
Fixpoint replace_one (sid : string) (doc : StoredSurvey) (up : bool)
  (l : list StoredSurvey) : list StoredSurvey :=
  match l with
  | [] => if up then [doc] else []
  | s :: l' =>
      if String.eqb (surveyId s) sid then doc :: l'
      else s :: replace_one sid doc up l'
  end.

(** [collection.delete_one({"surveyId": sid})]: the new list and
    [deleted_count]. *)
Fixpoint delete_one (sid : string) (l : list StoredSurvey)
  : list StoredSurvey * nat :=
  match l with
  | [] => ([], O)
  | s :: l' =>
      if String.eqb (surveyId s) sid then (l', 1%nat)
      else let '(r, n) := delete_one sid l' in (s :: r, n)
  end.

(** HTTP failures raised by the handlers. [ServerError] is the 500 of every
    [except Exception] clause. *)
Inductive err := NotFound | VersionNotFound | BadRequest | ServerError.

Inductive result (A : Type) :=
| Ok (a : A)
| Err (e : err).
Arguments Ok {A} a.
Arguments Err {A} e.

(** Python exceptions raised while translating one submitted version. *)
Inductive py_exc := KeyError (k : string) | TypeError | ValueError | ValidationError.

(** Result of Python code that may raise. *)
Inductive pyres (A : Type) :=
| POk (a : A)
| PExc (e : py_exc).
Arguments POk {A} a.
Arguments PExc {A} e.

(** Pydantic's validation of an [Optional[str]] field (no coercion of
    other types to [str]). *)
Definition opt_str_validate (v : value) : option (option string) :=
  match v with
  | VNull => Some None
  | VStr s => Some (Some s)
  | _ => None
  end.

(** Truthiness of [request.surveyId : Optional[str]]. *)
Definition py_truthy_opt_str (o : option string) : bool :=
  match o with
  | None => false
  | Some s => negb (String.eqb s "")
  end.

(** [generate_survey_id()]: [str(random.randint(1000, 9999))], the draw
    [r] being the result of [randint]. *)
Definition generate_survey_id (r : Z) : string := str_of_Z r.

(* ------------------------------------------------------------------ *)
(** ** [analyze_historical_surveys] parsing helpers *)

(** [s.split(",")]. *)
Fixpoint split_on (c : ascii) (s : string) : list string :=
  match s with
  | EmptyString => [EmptyString]
  | String c' s' =>
      if Ascii.eqb c c' then EmptyString :: split_on c s'
      else match split_on c s' with
           | [] => [String c' EmptyString]
           | h :: t => String c' h :: t
           end
  end.

(** A Python [str] is held as its UTF-8 bytes. The characters for which
    [str.isspace] holds, as their UTF-8 encodings: \t \n \v \f \r, the
    separators \x1c-\x1f, space, U+0085, U+00A0, U+1680, U+2000-U+200A,
    U+2028, U+2029, U+202F, U+205F and U+3000. *)
Definition py_spaces : list (list ascii) :=
  ([["009"]; ["010"]; ["011"]; ["012"]; ["013"];
   ["028"]; ["029"]; ["030"]; ["031"]; ["032"];
   ["194"; "133"]; ["194"; "160"];
   ["225"; "154"; "128"];
   ["226"; "128"; "128"]; ["226"; "128"; "129"]; ["226"; "128"; "130"];
   ["226"; "128"; "131"]; ["226"; "128"; "132"]; ["226"; "128"; "133"];
   ["226"; "128"; "134"]; ["226"; "128"; "135"]; ["226"; "128"; "136"];
   ["226"; "128"; "137"]; ["226"; "128"; "138"];
   ["226"; "128"; "168"]; ["226"; "128"; "169"]; ["226"; "128"; "175"];
   ["226"; "129"; "159"];
   ["227"; "128"; "128"]])%char.

(** [Some rest] when [l] starts with [p]. *)
Fixpoint prefix_rest (p l : list ascii) : option (list ascii) :=
  match p, l with
  | [], _ => Some l
  | a :: p', b :: l' => if Ascii.eqb a b then prefix_rest p' l' else None
  | _ :: _, [] => None
  end.

(** [l] without its first character when that character is one of [ws]. *)
Fixpoint first_some (ws : list (list ascii)) (l : list ascii) : option (list ascii) :=
  match ws with
  | [] => None
  | w :: ws' =>
      match prefix_rest w l with
      | Some r => Some r
      | None => first_some ws' l
      end
  end.

(** Removes leading characters of [ws]; [fuel] bounds the number of them. *)
Fixpoint lstrip_seqs (ws : list (list ascii)) (fuel : nat) (l : list ascii) : list ascii :=
  match fuel with
  | O => l
  | S f =>
      match first_some ws l with
      | Some r => lstrip_seqs ws f r
      | None => l
      end
  end.

(** [str.lstrip()] and [str.rstrip()] on UTF-8 bytes. In valid UTF-8 an
    encoded space found at the start, or at the end, is a whole character:
    its first byte is never a continuation byte. *)
Definition lstrip_l (l : list ascii) : list ascii :=
  lstrip_seqs py_spaces (length l) l.

Definition rstrip_l (l : list ascii) : list ascii :=
  rev (lstrip_seqs (map (@rev ascii) py_spaces) (length l) (rev l)).

(** [s.strip()]. *)
Definition py_strip (s : string) : string :=
  string_of_list_ascii (rstrip_l (lstrip_l (list_ascii_of_string s))).

(** [[sid.strip() for sid in survey_ids.split(",") if sid.strip()]]. *)
Definition parse_ids (survey_ids : string) : list string :=
  map py_strip
    (filter (fun sid => negb (String.eqb (py_strip sid) ""))
       (split_on "," survey_ids)).

Record Bundle := { b_survey : StoredSurvey; b_responses : list UserSurveyResponse }.

Record AnalyzeResult := {
  an_success : bool;
  an_data : list Bundle;
  an_count : Z }.

(** [responses_collection.find({"surveyId": sid}).to_list(length=None)]. *)
Definition responses_for (sid : string) (l : list UserSurveyResponse)
  : list UserSurveyResponse :=
  filter (fun r => String.eqb (r_surveyId r) sid) l.

(* ------------------------------------------------------------------ *)
(** ** MongoDB [$regex] with [$options: "i"] (modelled fragment) *)

Inductive atom := ALit (c : ascii) | AAny.

(** Characters with a special meaning in a PCRE pattern. *)
Definition regex_meta (c : ascii) : bool :=
  existsb (Ascii.eqb c) (list_ascii_of_string "\^$.[]|()?*+{}").

(** The patterns of the modelled fragment: ordinary characters and [.].
    [None]: the pattern uses other PCRE syntax (anchors, quantifiers,
    classes, groups, alternation, escapes), which is not modelled. *)
Fixpoint parse_pattern (s : string) : option (list atom) :=
  match s with
  | EmptyString => Some []
  | String c s' =>
      if Ascii.eqb c "." then option_map (cons AAny) (parse_pattern s')
      else if regex_meta c then None
      else option_map (cons (ALit c)) (parse_pattern s')
  end.

(** ASCII case folding of the [i] option. *)
Definition lower (c : ascii) : ascii :=
  let n := nat_of_ascii c in
  if ((65 <=? n)%nat && (n <=? 90)%nat) then ascii_of_nat (n + 32) else c.

(** [.] matches any character but a newline. *)
Definition atom_match (a : atom) (c : ascii) : bool :=
  match a with
  | ALit d => Ascii.eqb (lower d) (lower c)
  | AAny => negb (Ascii.eqb c "010")
  end.

Fixpoint match_here (p : list atom) (s : list ascii) : bool :=
  match p, s with
  | [], _ => true
  | a :: p', c :: s' => atom_match a c && match_here p' s'
  | _ :: _, [] => false
  end.

(** An unanchored regex matches at some position of the subject. *)
Fixpoint match_anywhere (p : list atom) (s : list ascii) : bool :=
  match_here p s || match s with [] => false | _ :: s' => match_anywhere p s' end.

Definition regex_search_ci (p : list atom) (subject : string) : bool :=
  match_anywhere p (list_ascii_of_string subject).

(** [.sort("createdAt", -1)]: stable insertion sort, newest first (ties in
    storage order). *)
Fixpoint insert_desc (d : StoredSurvey) (l : list StoredSurvey) : list StoredSurvey :=
  match l with
  | [] => [d]
  | x :: l' =>
      if (createdAt x <? createdAt d)%Z then d :: l else x :: insert_desc d l'
  end.

Definition sort_desc (l : list StoredSurvey) : list StoredSurvey :=
  fold_left (fun acc d => insert_desc d acc) l [].

Record SurveysListResponse := {
  sl_success : bool;
  sl_surveys : list StoredSurvey;
  sl_total : Z }.

(** A byte of the UTF-8 encoding of a non-ASCII character. *)
Definition non_ascii (c : ascii) : bool := (128 <=? nat_of_ascii c)%nat.

Definition ascii_text (s : string) : bool :=
  forallb (fun c => negb (non_ascii c)) (list_ascii_of_string s).

Definition ascii_ids (st : db) : bool :=
  forallb (fun s => ascii_text (surveyId s)) (surveys st).

Definition has_nul (s : string) : bool :=
  existsb (fun c => Ascii.eqb c "000") (list_ascii_of_string s).

(** [GET /api/surveys/search/{query}]. The store refuses a pattern that
    holds a NUL byte (error 51091), and the handler answers 500. [None]:
    outside the model, either the query uses PCRE syntax other than [.], or
    the query or a stored surveyId has a non-ASCII character. The store's
    UTF-8 PCRE folds those by Unicode case rules, under which ASCII [k] and
    [s] also match some non-ASCII letters. *)
Definition search_surveys (st : db) (query : string)
  : option (result SurveysListResponse) :=
  if has_nul query then Some (Err ServerError)
  else if negb (ascii_text query && ascii_ids st) then None
  else
  match parse_pattern query with
  | None => None
  | Some pat =>
      let docs := firstn 100
        (sort_desc (filter (fun s => regex_search_ci pat (surveyId s)) (surveys st))) in
      Some (Ok {| sl_success := true; sl_surveys := docs;
                  sl_total := Z.of_nat (length docs) |})
  end.

(* ------------------------------------------------------------------ *)
(** ** Handlers that need no library behaviour *)

(** [GET /api/surveys/{survey_id}]. *)
Definition get_survey (st : db) (survey_id : string) : result SurveyResponse :=
  match find_one survey_id (surveys st) with
  | None => Err NotFound
  | Some s => Ok {| res_success := true; res_survey := Some s; res_message := None |}
  end.

(** [GET /api/surveys/{survey_id}/versions/{version}]: [next(...)] over the
    stored versions. *)
Definition get_survey_version (st : db) (survey_id : string) (n : Z)
  : result StoredVersion :=
  match find_one survey_id (surveys st) with
  | None => Err NotFound
  | Some s =>
      match find (fun v => Z.eqb (version v) n) (versions s) with
      | None => Err VersionNotFound
      | Some v => Ok v
      end
  end.

(** [DELETE /api/surveys/{survey_id}]. *)
Definition delete_survey (st : db) (survey_id : string) : result unit * db :=
  let '(l, n) := delete_one survey_id (surveys st) in
  if Nat.eqb n 0 then (Err NotFound, st)
  else (Ok tt, {| surveys := l; responses := responses st |}).

(** [DELETE /api/surveys/]: the deleted count. *)
Definition clear_all_surveys (st : db) : nat * db :=
  (length (surveys st), {| surveys := []; responses := responses st |}).

(** [POST /api/surveys/responses/]. [response_id] is [str(uuid.uuid4())],
    [now] is [datetime.utcnow()]. *)
Definition submit_survey_response (st : db) (request : SubmitSurveyResponseRequest)
  (response_id : string) (now : datetime) : result SubmitSurveyResponseResult * db :=
  match find_one (sr_surveyId request) (surveys st) with
  | None => (Err NotFound, st)
  | Some _ =>
      let response_doc :=
        {| responseId := response_id; r_surveyId := sr_surveyId request;
           r_versionId := sr_versionId request;
           respondentInfo := sr_respondentInfo request;
           answers := sr_answers request; submittedAt := now;
           completionTime := sr_completionTime request |} in
      (Ok {| sub_success := true; sub_responseId := response_id;
             sub_message := Some "Survey response submitted successfully" |},
       {| surveys := surveys st; responses := responses st ++ [response_doc] |})
  end.

(** [GET /api/surveys/responses/{survey_id}]: the response model is built
    with the keyword [count]. *)
Definition get_survey_responses (st : db) (survey_id : string)
  : result SurveyResponsesListResponse :=
  let responses_l := responses_for survey_id (responses st) in
  match SurveyResponsesListResponse_new
          [("success", KBool true); ("responses", KResponses responses_l);
           ("count", KInt (Z.of_nat (length responses_l)))] with
  | Some r => Ok r
  | None => Err ServerError
  end.

(** The [for survey_id in id_list] loop of [analyze_historical_surveys]. *)
Fixpoint collect_bundles (st : db) (ids : list string) : list Bundle :=
  match ids with
  | [] => []
  | sid :: rest =>
      match find_one sid (surveys st) with
      | None => collect_bundles st rest
      | Some s =>
          {| b_survey := s; b_responses := responses_for sid (responses st) |}
            :: collect_bundles st rest
      end
  end.

(** [POST /api/surveys/analyze-historical?survey_ids=...]. *)
Definition analyze_historical_surveys (st : db) (survey_ids : string)
  : result AnalyzeResult :=
  let id_list := parse_ids survey_ids in
  if Nat.eqb (length id_list) 0 then Err BadRequest
  else if Nat.ltb 5 (length id_list) then Err BadRequest
  else
    let result_l := collect_bundles st id_list in
    if Nat.eqb (length result_l) 0 then Err NotFound
    else Ok {| an_success := true; an_data := result_l;
               an_count := Z.of_nat (length result_l) |}.

(* ------------------------------------------------------------------ *)
(** ** The handlers *)

Section Api.

(** Pydantic's lax [int] validation of [StoredVersion.version]. *)
Variable int_validate : value -> option Z.
(** f-string formatting [f"{x}"] of a non-[int] value. *)
Variable py_format : value -> string.
(** [SurveyConfig(..)] unpacking a mapping [d]: pydantic validation of the
    configuration schema ([None] is a [ValidationError]). *)
Variable SurveyConfig_validate : dict -> option SurveyConfig.
(** [datetime.fromisoformat] ([None] is a [ValueError]). *)
Variable fromisoformat : string -> option datetime.
(** Pydantic's [datetime] validation of a non-[str] value. *)
Variable datetime_validate : value -> option datetime.

(** [f"{x}"]: an [int] is printed by [str]. *)
Definition format_value (v : value) : string :=
  match v with
  | VInt z => str_of_Z z
  | _ => py_format v
  end.

(** [generate_version_id(survey_id, version)]: [f"{survey_id}v{version}"]. *)
Definition generate_version_id (survey_id : string) (version : value) : string :=
  survey_id ++ "v" ++ format_value version.

(** The body of the [for v in request.versions] loop of [create_survey] and
    [update_survey]: the keyword arguments are evaluated left to right,
    then [StoredVersion(...)] validates them. *)
Definition translate_version (survey_id : string) (v : dict) : pyres StoredVersion :=
  match dict_get "version" v with
  | None => PExc (KeyError "version")
  | Some raw_version =>
  let vid := generate_version_id survey_id raw_version in
  match dict_get "config" v with
  | None => PExc (KeyError "config")
  | Some (VDict d) =>
  match SurveyConfig_validate d with
  | None => PExc ValidationError
  | Some cfg =>
  let raw_prompt := dict_get_default "prompt" v in
  match dict_get "timestamp" v with
  | None => PExc (KeyError "timestamp")
  | Some raw_ts =>
  let ts_arg : pyres (option datetime) :=
    match raw_ts with
    | VStr s =>
        match fromisoformat (replace_char "Z" "+00:00" s) with
        | Some t => POk (Some t)
        | None => PExc ValueError
        end
    | _ => POk None
    end in
  match ts_arg with
  | PExc e => PExc e
  | POk ts_parsed =>
  (* StoredVersion(...) field validation *)
  let ts := match ts_parsed with
            | Some t => Some t
            | None => datetime_validate raw_ts
            end in
  match int_validate raw_version, opt_str_validate raw_prompt, ts with
  | Some n, Some p, Some t =>
      POk {| version := n; versionId := vid; config := cfg;
             prompt := p; timestamp := t |}
  | _, _, _ => PExc ValidationError
  end
  end
  end
  end
  | Some _ => PExc TypeError
  end
  end.

(** The whole loop: [stored_versions.append(...)] in request order. *)
Fixpoint translate_all (survey_id : string) (vs : list dict)
  : pyres (list StoredVersion) :=
  match vs with
  | [] => POk []
  | v :: vs' =>
      match translate_version survey_id v with
      | PExc e => PExc e
      | POk sv =>
          match translate_all survey_id vs' with
          | PExc e => PExc e
          | POk svs => POk (sv :: svs)
          end
      end
  end.

(** The [while True] loop of [create_survey]: [draws] are the successive
    results of [random.randint(1000, 9999)]; [None] when the loop has not
    found a free id within them. *)
Fixpoint gen_unique (l : list StoredSurvey) (draws : list Z) : option string :=
  match draws with
  | [] => None
  | r :: rest =>
      let sid := generate_survey_id r in
      match find_one sid l with
      | Some _ => gen_unique l rest
      | None => Some sid
      end
  end.

(** [POST /api/surveys/]. [now] is [datetime.utcnow()]. [None]: the id
    generation loop does not stop within [draws]. *)
Definition create_survey (st : db) (request : CreateSurveyRequest)
  (draws : list Z) (now : datetime) : option (result SurveyResponse * db) :=
  let sid_opt :=
    if py_truthy_opt_str (cr_surveyId request)
    then cr_surveyId request
    else gen_unique (surveys st) draws in
  match sid_opt with
  | None => None
  | Some survey_id =>
      let created_at :=
        match find_one survey_id (surveys st) with
        | Some existing => createdAt existing
        | None => now
        end in
      match translate_all survey_id (cr_versions request) with
      | PExc _ => Some (Err ServerError, st)
      | POk stored_versions =>
          let survey := {| surveyId := survey_id; createdAt := created_at;
                           versions := stored_versions |} in
          Some (Ok {| res_success := true; res_survey := Some survey;
                      res_message := Some ("Survey " ++ survey_id ++ " saved successfully") |},
                {| surveys := replace_one survey_id survey true (surveys st);
                   responses := responses st |})
      end
  end.

(** [PUT /api/surveys/{survey_id}]. *)
Definition update_survey (st : db) (survey_id : string) (request : UpdateSurveyRequest)
  : result SurveyResponse * db :=
  match find_one survey_id (surveys st) with
  | None => (Err NotFound, st)
  | Some existing =>
      match translate_all survey_id (ur_versions request) with
      | PExc _ => (Err ServerError, st)
      | POk stored_versions =>
          let survey := {| surveyId := survey_id; createdAt := createdAt existing;
                           versions := stored_versions |} in
          (Ok {| res_success := true; res_survey := Some survey;
                 res_message := Some ("Survey " ++ survey_id ++ " updated successfully") |},
           {| surveys := replace_one survey_id survey false (surveys st);
              responses := responses st |})
      end
  end.

(** Databases reachable from an empty one through the handlers. *)
Inductive reachable : db -> Prop :=
| reach_empty : reachable empty_db
| reach_create st request draws now r st' :
    reachable st -> create_survey st request draws now = Some (r, st') -> reachable st'
| reach_update st sid request r st' :
    reachable st -> update_survey st sid request = (r, st') -> reachable st'
| reach_delete st sid r st' :
    reachable st -> delete_survey st sid = (r, st') -> reachable st'
| reach_clear st n st' :
    reachable st -> clear_all_surveys st = (n, st') -> reachable st'
| reach_submit st request rid now r st' :
    reachable st -> submit_survey_response st request rid now = (r, st') -> reachable st'.

(** One call of a handler that may write. *)
Inductive step : db -> db -> Prop :=
| step_create st request draws now r st' :
    create_survey st request draws now = Some (r, st') -> step st st'
| step_update st sid request r st' :
    update_survey st sid request = (r, st') -> step st st'
| step_delete st sid r st' :
    delete_survey st sid = (r, st') -> step st st'
| step_clear st n st' :
    clear_all_surveys st = (n, st') -> step st st'
| step_submit st request rid now r st' :
    submit_survey_response st request rid now = (r, st') -> step st st'.

End Api.

(* ------------------------------------------------------------------ *)
(** ** Readings of the specification *)

Fixpoint list_prefixb (p l : list ascii) : bool :=
  match p, l with
  | [], _ => true
  | a :: p', b :: l' => Ascii.eqb a b && list_prefixb p' l'
  | _ :: _, [] => false
  end.

Fixpoint is_substring (needle hay : list ascii) : bool :=
  list_prefixb needle hay
  || match hay with [] => false | _ :: hay' => is_substring needle hay' end.

(** The spec's search predicate: [fragment] occurs in [id] as a
    case-insensitive literal substring. *)
Definition contains_ci (fragment id : string) : bool :=
  is_substring (map lower (list_ascii_of_string fragment))
               (map lower (list_ascii_of_string id)).

(** A query without PCRE metacharacters. *)
Definition meta_free (q : string) : bool :=
  forallb (fun c => negb (regex_meta c)) (list_ascii_of_string q).

(** [id] has a character other than a newline (what [.] matches). *)
Definition has_non_newline (id : string) : bool :=
  existsb (fun c => negb (Ascii.eqb c "010")) (list_ascii_of_string id).

Definition is_digit (c : ascii) : bool :=
  (48 <=? nat_of_ascii c)%nat && (nat_of_ascii c <=? 57)%nat.

(** A 4-digit decimal string. *)
Definition four_digits (s : string) : bool :=
  Nat.eqb (String.length s) 4 && forallb is_digit (list_ascii_of_string s).

(* ------------------------------------------------------------------ *)
(** ** Sample library behaviour, to run the handlers on concrete input *)

Module Sample.

Local Open Scope Z_scope.

Definition int_validate (v : value) : option Z :=
  match v with
  | VInt z => Some z
  | VBool b => Some (if b then 1%Z else 0%Z)
  | _ => None
  end.

Definition py_format (v : value) : string :=
  match v with
  | VNull => "None"
  | VBool b => if b then "True" else "False"
  | VInt z => str_of_Z z
  | VStr s => s
  | _ => ""
  end.

(** Accepts a configuration with an empty [sections] list. *)
Definition SurveyConfig_validate (d : dict) : option SurveyConfig :=
  match dict_get "sections" d with
  | Some (VList []) =>
      Some {| cfg_title := None; cfg_description := None; cfg_meta := None;
              cfg_sections := [] |}
  | _ => None
  end.

(** Knows one instant, 2024-01-01T00:00:00 UTC (Unix seconds). *)
Definition fromisoformat (s : string) : option datetime :=
  if String.eqb s "2024-01-01T00:00:00+00:00" then Some 1704067200%Z else None.

Definition datetime_validate (v : value) : option datetime :=
  match v with VInt z => Some z | _ => None end.

Definition empty_config : SurveyConfig :=
  {| cfg_title := None; cfg_description := None; cfg_meta := None; cfg_sections := [] |}.

Definition config_value : value := VDict [("sections", VList [])].

(** The version of the spec's concrete scenario. *)
Definition v1 : dict :=
  [("version", VInt 1); ("config", config_value);
   ("timestamp", VStr "2024-01-01T00:00:00Z")].

Definition v2 : dict :=
  [("version", VInt 2); ("config", config_value); ("timestamp", VInt 1704153600)].

Definition v_no_timestamp : dict := [("version", VInt 1); ("config", config_value)].

Definition sv1 : StoredVersion :=
  {| version := 1; versionId := "4821v1"; config := empty_config; prompt := None;
     timestamp := 1704067200 |}.

Definition sv2 : StoredVersion :=
  {| version := 2; versionId := "4821v2"; config := empty_config; prompt := None;
     timestamp := 1704153600 |}.

(** The store after creating survey 4821 (drawn id) at instant 100. *)
Definition survey1 : StoredSurvey :=
  {| surveyId := "4821"; createdAt := 100; versions := [sv1] |}.

Definition st1 : db := {| surveys := [survey1]; responses := [] |}.

Definition survey_4821 : StoredSurvey :=
  {| surveyId := "4821"; createdAt := 0; versions := [] |}.

Definition store_4821 : db := {| surveys := [survey_4821]; responses := [] |}.

End Sample.

(* ------------------------------------------------------------------ *)
(** ** Listing and statistics *)

(** [GET /api/surveys/?skip=..&limit=..]: [.sort("createdAt", -1)
    .skip(skip).limit(limit)], [to_list(length=limit)], and the total of
    [count_documents({})]. [None]: a negative [skip] (refused by MongoDB) or
    a [limit <= 0] ([limit(0)] means no limit, a negative limit a single
    batch) is outside the model. The [find] command carries [skip] and
    [limit] as BSON integers of at most 64 bits: pymongo raises
    [OverflowError] on a larger value, which the handler answers with a 500. *)
Definition bson_int64_max : Z := 9223372036854775807.

Definition get_all_surveys (st : db) (skip limit : Z)
  : option (result SurveysListResponse) :=
  if (skip <? 0)%Z || (limit <=? 0)%Z then None
  else if (bson_int64_max <? skip)%Z || (bson_int64_max <? limit)%Z then Some (Err ServerError)
  else
    let cursor := firstn (Z.to_nat limit) (skipn (Z.to_nat skip) (sort_desc (surveys st))) in
    let docs := firstn (Z.to_nat limit) cursor in
    Some (Ok {| sl_success := true; sl_surveys := docs;
                sl_total := Z.of_nat (length (surveys st)) |}).

(** One entry of [StorageStatsResponse.surveys]; [si_title] is [None] for
    Python's [None]. *)
Record SurveyInfo := {
  si_surveyId : string;
  si_versionCount : Z;
  si_createdAt : datetime;
  si_title : option string }.

Record StorageStatsResponse := {
  totalSurveys : Z;
  totalVersions : Z;
  storageSizeBytes : Z;
  storageSizeMB : string;
  stats_surveys : list SurveyInfo }.

(** [survey.versions[-1]]. *)
Definition last_version (l : list StoredVersion) : option StoredVersion :=
  match rev l with [] => None | v :: _ => Some v end.

Definition survey_info (s : StoredSurvey) : SurveyInfo :=
  {| si_surveyId := surveyId s;
     si_versionCount := Z.of_nat (length (versions s));
     si_createdAt := createdAt s;
     si_title := match last_version (versions s) with
                 | Some v => cfg_title (config v)
                 | None => Some "Untitled"
                 end |}.

Section Stats.

(** [len(json.dumps(surveys_docs, default=str).encode('utf-8'))]. *)
Variable json_size : list StoredSurvey -> Z.
(** [f"{storage_bytes / (1024 * 1024):.2f}"]. *)
Variable format_mb : Z -> string.

(** [GET /api/surveys/stats/storage]. *)
Definition get_storage_stats (st : db) : StorageStatsResponse :=
  let ss := surveys st in
  {| totalSurveys := Z.of_nat (length ss);
     totalVersions := Z.of_nat (list_sum (map (fun s => length (versions s)) ss));
     storageSizeBytes := json_size ss;
     storageSizeMB := format_mb (json_size ss);
     stats_surveys := map survey_info ss |}.

End Stats.

(* ================================================================== *)
(** * Properties *)

Section Proofs.

Context (int_validate : value -> option Z) (py_format : value -> string)
  (SurveyConfig_validate : dict -> option SurveyConfig)
  (fromisoformat : string -> option datetime)
  (datetime_validate : value -> option datetime).

Local Abbreviation create :=
  (create_survey int_validate py_format SurveyConfig_validate fromisoformat datetime_validate).
Local Abbreviation update :=
  (update_survey int_validate py_format SurveyConfig_validate fromisoformat datetime_validate).
Local Abbreviation translate :=
  (translate_all int_validate py_format SurveyConfig_validate fromisoformat datetime_validate).
Local Abbreviation reach :=
  (reachable int_validate py_format SurveyConfig_validate fromisoformat datetime_validate).

(** ** Store primitives *)

Lemma find_one_some sid l s :
  find_one sid l = Some s -> surveyId s = sid /\ In s l.
Proof.
  induction l as [|x l IH]; simpl; [discriminate|].
  destruct (String.eqb (surveyId x) sid) eqn:E.
  - intros [= <-]. apply String.eqb_eq in E. auto.
  - intros H. destruct (IH H). auto.
Qed.

Lemma find_one_none sid l :
  find_one sid l = None -> forall s, In s l -> surveyId s <> sid.
Proof.
  induction l as [|x l IH]; simpl; [tauto|].
  destruct (String.eqb (surveyId x) sid) eqn:E; [discriminate|].
  intros H s [<-|Hin].
  - apply String.eqb_neq in E. exact E.
  - exact (IH H s Hin).
Qed.

Lemma find_one_replace_one sid doc up l :
  surveyId doc = sid -> (up = true \/ find_one sid l <> None) ->
  find_one sid (replace_one sid doc up l) = Some doc.
Proof.
  intros Hid Hup. induction l as [|x l IH]; simpl in *.
  - destruct Hup as [->|H]; [|congruence]. simpl.
    rewrite Hid, String.eqb_refl. reflexivity.
  - destruct (String.eqb (surveyId x) sid) eqn:E; simpl.
    + rewrite Hid, String.eqb_refl. reflexivity.
    + rewrite E. apply IH. exact Hup.
Qed.

Lemma in_replace_one sid doc up l x :
  In x (replace_one sid doc up l) -> In x l \/ x = doc.
Proof.
  induction l as [|y l IH]; simpl.
  - destruct up; simpl; intuition.
  - destruct (String.eqb (surveyId y) sid); simpl; intuition.
Qed.

Lemma in_delete_one sid l x : In x (fst (delete_one sid l)) -> In x l.
Proof.
  induction l as [|y l IH]; simpl; [tauto|].
  destruct (String.eqb (surveyId y) sid); simpl; [tauto|].
  destruct (delete_one sid l) as [r n]; simpl in *. intuition.
Qed.

(** ** [str] of an [int] is never empty *)

Lemma dec_aux_nonempty fuel n acc : acc <> "" -> dec_aux fuel n acc <> "".
Proof.
  revert n acc. induction fuel as [|f IH]; intros n acc H; simpl; [exact H|].
  destruct (n <? 10)%N; [discriminate|]. apply IH. discriminate.
Qed.

Lemma str_of_Z_nonempty z : str_of_Z z <> "".
Proof.
  unfold str_of_Z, str_of_N. destruct (z <? 0)%Z; [discriminate|].
  simpl. destruct (Z.to_N z <? 10)%N; [discriminate|].
  apply dec_aux_nonempty. discriminate.
Qed.

Lemma gen_unique_spec l draws sid :
  gen_unique l draws = Some sid ->
  find_one sid l = None /\ exists r, In r draws /\ sid = generate_survey_id r.
Proof.
  induction draws as [|r rest IH]; simpl; [discriminate|].
  destruct (find_one (generate_survey_id r) l) eqn:E.
  - intros H. destruct (IH H) as [H1 [r' [Hin Heq]]]. eauto.
  - intros [= <-]. eauto.
Qed.

Lemma create_id_nonempty st request draws now r st' :
  create st request draws now = Some (r, st') ->
  forall s, In s (surveys st') -> In s (surveys st) \/ surveyId s <> "".
Proof.
  unfold create_survey.
  destruct (py_truthy_opt_str (cr_surveyId request)) eqn:Ht.
  - destruct (cr_surveyId request) as [sid|] eqn:Hs; simpl in Ht; [|discriminate].
    destruct (translate sid (cr_versions request)); intros [= <- <-]; [|auto].
    intros s Hin. simpl in Hin. apply in_replace_one in Hin as [Hin| ->]; [auto|].
    right. simpl. apply negb_true_iff, String.eqb_neq in Ht. exact Ht.
  - destruct (gen_unique (surveys st) draws) as [sid|] eqn:Hg; [|discriminate].
    apply gen_unique_spec in Hg as [_ [r0 [_ ->]]].
    destruct (translate _ (cr_versions request)); intros [= <- <-]; [|auto].
    intros s Hin. simpl in Hin. apply in_replace_one in Hin as [Hin| ->]; [auto|].
    right. apply str_of_Z_nonempty.
Qed.

(** Every survey stored by the handlers has a non-empty [surveyId]. *)
Lemma reachable_ids_nonempty st :
  reach st -> forall s, In s (surveys st) -> surveyId s <> "".
Proof.
  induction 1 as [| st request draws now r st' Hr IH Hc
                  | st sid request r st' Hr IH Hu
                  | st sid r st' Hr IH Hd
                  | st n st' Hr IH Hc
                  | st request rid now r st' Hr IH Hs]; intros s Hin.
  - destruct Hin.
  - destruct (create_id_nonempty _ _ _ _ _ _ Hc s Hin); auto.
  - unfold update_survey in Hu.
    destruct (find_one sid (surveys st)) as [e|] eqn:Hf; [|injection Hu as _ <-; auto].
    destruct (translate sid (ur_versions request)); injection Hu as _ <-; [|auto].
    simpl in Hin. apply in_replace_one in Hin as [Hin| ->]; [auto|].
    simpl. apply find_one_some in Hf as [<- Hin']. auto.
  - unfold delete_survey in Hd.
    destruct (delete_one sid (surveys st)) as [l n] eqn:Hdl.
    destruct (Nat.eqb n 0); injection Hd as _ <-; [auto|].
    apply IH, (in_delete_one sid). rewrite Hdl. exact Hin.
  - injection Hc as _ <-. destruct Hin.
  - unfold submit_survey_response in Hs.
    destruct (find_one _ (surveys st)); injection Hs as _ <-; auto.
Qed.

(** ** Claims *)

(** C1: on a surveyId already stored, [create] again replaces the stored
    versions wholesale by the translated submitted versions (no merge) and
    keeps the stored [createdAt]. *)
Theorem create_existing_replaces_versions (st : db) (sid : string)
  (old : StoredSurvey) (vs : list dict) (svs : list StoredVersion)
  (draws : list Z) (now : datetime) :
  reach st ->
  find_one sid (surveys st) = Some old ->
  translate sid vs = POk svs ->
  let survey := {| surveyId := sid; createdAt := createdAt old; versions := svs |} in
  exists st',
    create st {| cr_versions := vs; cr_surveyId := Some sid |} draws now
      = Some (Ok {| res_success := true; res_survey := Some survey;
                    res_message := Some ("Survey " ++ sid ++ " saved successfully") |}, st')
    /\ find_one sid (surveys st') = Some survey
    /\ get_survey st' sid = Ok {| res_success := true; res_survey := Some survey;
                                 res_message := None |}.
Proof.
  intros Hr Hf Ht survey.
  assert (Hne : sid <> "").
  { destruct (find_one_some _ _ _ Hf) as [<- Hin].
    exact (reachable_ids_nonempty _ Hr old Hin). }
  assert (Htr : py_truthy_opt_str (Some sid) = true).
  { simpl. apply negb_true_iff, String.eqb_neq. exact Hne. }
  assert (Hfind : find_one sid (replace_one sid survey true (surveys st)) = Some survey).
  { apply find_one_replace_one; auto. }
  exists {| surveys := replace_one sid survey true (surveys st);
           responses := responses st |}.
  split; [|split].
  - unfold create_survey. simpl cr_surveyId. rewrite Htr. simpl cr_versions.
    rewrite Hf, Ht. reflexivity.
  - exact Hfind.
  - unfold get_survey. cbn [surveys]. rewrite Hfind. reflexivity.
Qed.

(** C2: [update] on a surveyId with no document fails with NotFound and
    writes nothing, so [get] on it still fails with NotFound. *)
Theorem update_missing_not_found (st : db) (sid : string) (request : UpdateSurveyRequest) :
  find_one sid (surveys st) = None ->
  update st sid request = (Err NotFound, st) /\ get_survey st sid = Err NotFound.
Proof.
  intros H. unfold update_survey, get_survey. rewrite H. auto.
Qed.

(** C3: the version identifier of an integer version [n] is the
    concatenation [id ++ "v" ++ str(n)]; the function is total. *)
Theorem generate_version_id_concat (id : string) (n : Z) :
  generate_version_id py_format id (VInt n) = id ++ "v" ++ str_of_Z n.
Proof. reflexivity. Qed.

(** C7: [getVersion] fails with NotFound on an absent survey, with
    VersionNotFound when no stored entry has the requested version, and
    otherwise returns the first stored entry with that version. *)
Theorem get_survey_version_spec (st : db) (sid : string) (n : Z) :
  (find_one sid (surveys st) = None -> get_survey_version st sid n = Err NotFound)
  /\ (forall s, find_one sid (surveys st) = Some s ->
        (Forall (fun v => version v <> n) (versions s) ->
         get_survey_version st sid n = Err VersionNotFound)
        /\ (forall pre v post,
              versions s = (pre ++ v :: post)%list ->
              Forall (fun w => version w <> n) pre -> version v = n ->
              get_survey_version st sid n = Ok v)).
Proof.
  unfold get_survey_version. split; [intros ->; reflexivity|].
  intros s ->. split.
  - intros Hall. induction Hall as [|w l Hw Hall IH]; [reflexivity|].
    simpl. apply Z.eqb_neq in Hw. rewrite Hw. exact IH.
  - intros pre v post -> Hpre Hv. induction Hpre as [|w l Hw Hpre IH]; simpl.
    + rewrite Hv, Z.eqb_refl. reflexivity.
    + apply Z.eqb_neq in Hw. rewrite Hw. exact IH.
Qed.

(** C5 (the code defeats it): [listForSurvey] builds its
    [SurveyResponsesListResponse] with the keyword [count] while the model
    declares [total], so pydantic rejects the construction and the handler
    answers the 500 failure for every surveyId and every store. *)
Theorem get_survey_responses_always_fails (st : db) (sid : string) :
  get_survey_responses st sid = Err ServerError.
Proof. reflexivity. Qed.

(** C9: [submit] on a surveyId without a survey fails with NotFound and
    leaves the store unchanged; on an existing survey it appends exactly one
    new response carrying the generated responseId, the old responses
    untouched. *)
Theorem submit_survey_response_spec (st : db) (request : SubmitSurveyResponseRequest)
  (rid : string) (now : datetime) :
  (find_one (sr_surveyId request) (surveys st) = None ->
   submit_survey_response st request rid now = (Err NotFound, st))
  /\ (forall s, find_one (sr_surveyId request) (surveys st) = Some s ->
        submit_survey_response st request rid now =
          (Ok {| sub_success := true; sub_responseId := rid;
                 sub_message := Some "Survey response submitted successfully" |},
           {| surveys := surveys st;
              responses := responses st ++
                [{| responseId := rid; r_surveyId := sr_surveyId request;
                    r_versionId := sr_versionId request;
                    respondentInfo := sr_respondentInfo request;
                    answers := sr_answers request; submittedAt := now;
                    completionTime := sr_completionTime request |}] |})).
Proof.
  unfold submit_survey_response. split.
  - intros ->. reflexivity.
  - intros s ->. reflexivity.
Qed.

Lemma parse_ids_nonempty csv : Forall (fun sid => sid <> "") (parse_ids csv).
Proof.
  unfold parse_ids. apply Forall_forall. intros x Hx.
  apply in_map_iff in Hx as [y [<- Hy]]. apply filter_In in Hy as [_ Hy].
  apply negb_true_iff, String.eqb_neq in Hy. exact Hy.
Qed.

Lemma collect_bundles_flat_map st ids :
  collect_bundles st ids =
  flat_map (fun sid => match find_one sid (surveys st) with
                       | Some s => [{| b_survey := s; b_responses := responses_for sid (responses st) |}]
                       | None => []
                       end) ids.
Proof.
  induction ids as [|sid ids IH]; simpl; [reflexivity|].
  destruct (find_one sid (surveys st)); simpl; rewrite IH; reflexivity.
Qed.

Lemma collect_bundles_nil st ids :
  collect_bundles st ids = [] <-> Forall (fun sid => find_one sid (surveys st) = None) ids.
Proof.
  induction ids as [|sid ids IH]; simpl.
  - split; auto.
  - destruct (find_one sid (surveys st)) eqn:E.
    + split; [discriminate|]. intros H. inversion H; congruence.
    + rewrite IH. split; [auto|]. intros H. inversion H; auto.
Qed.

(** C8: [analyzeHistorical] parses the comma-separated ids (stripped,
    empties dropped); fails with BadRequest on none or more than 5; returns
    NotFound exactly when no id resolves; otherwise returns one bundle per
    resolved id, in order, unresolved ids skipped, with [count] the number of
    bundles. *)
Theorem analyze_historical_spec (st : db) (csv : string) :
  let ids := parse_ids csv in
  Forall (fun sid => sid <> "") ids
  /\ (ids = [] \/ (5 < length ids)%nat -> analyze_historical_surveys st csv = Err BadRequest)
  /\ (ids <> [] -> (length ids <= 5)%nat ->
      (Forall (fun sid => find_one sid (surveys st) = None) ids ->
       analyze_historical_surveys st csv = Err NotFound)
      /\ (Exists (fun sid => find_one sid (surveys st) <> None) ids ->
          analyze_historical_surveys st csv =
            Ok {| an_success := true; an_data := collect_bundles st ids;
                  an_count := Z.of_nat (length (collect_bundles st ids)) |}))
  /\ collect_bundles st ids =
     flat_map (fun sid => match find_one sid (surveys st) with
                          | Some s => [{| b_survey := s;
                                          b_responses := responses_for sid (responses st) |}]
                          | None => []
                          end) ids.
Proof.
  intros ids. split; [apply parse_ids_nonempty|]. split; [|split].
  - unfold analyze_historical_surveys. fold ids. intros [-> | Hlt]; [reflexivity|].
    destruct (Nat.eqb (length ids) 0); [reflexivity|].
    apply Nat.ltb_lt in Hlt. rewrite Hlt. reflexivity.
  - intros Hne Hle. unfold analyze_historical_surveys. fold ids.
    assert (E0 : Nat.eqb (length ids) 0 = false).
    { apply Nat.eqb_neq. intros H. apply Hne. apply length_zero_iff_nil. exact H. }
    assert (E5 : Nat.ltb 5 (length ids) = false) by (apply Nat.ltb_ge; exact Hle).
    rewrite E0, E5. split.
    + intros Hall. apply collect_bundles_nil in Hall. rewrite Hall. reflexivity.
    + intros Hex. destruct (collect_bundles st ids) eqn:Ec.
      * apply collect_bundles_nil in Ec. exfalso.
        apply Exists_exists in Hex as [x [Hx Hf]].
        rewrite Forall_forall in Ec. exact (Hf (Ec x Hx)).
      * reflexivity.
  - apply collect_bundles_flat_map.
Qed.

Lemma four_digits_range r :
  (1000 <= r <= 9999)%Z -> four_digits (generate_survey_id r) = true.
Proof.
  intros Hr.
  assert (Hall : forallb (fun n => four_digits (generate_survey_id (Z.of_nat n + 1000)))
                   (seq 0 (Z.to_nat 9000)) = true) by (vm_compute; reflexivity).
  rewrite forallb_forall in Hall.
  replace r with (Z.of_nat (Z.to_nat (r - 1000)) + 1000)%Z by lia.
  apply Hall, in_seq. lia.
Qed.

(** C10: a create request whose surveyId is the empty string behaves as one
    without surveyId: a fresh 4-digit id, absent from the store, is drawn
    and only it is written; [""] is never stored. *)
Theorem create_empty_id_generates (st : db) (vs : list dict) (draws : list Z)
  (now : datetime) :
  create st {| cr_versions := vs; cr_surveyId := Some "" |} draws now
    = create st {| cr_versions := vs; cr_surveyId := None |} draws now
  /\ (Forall (fun r => (1000 <= r <= 9999)%Z) draws ->
      forall res st',
        create st {| cr_versions := vs; cr_surveyId := Some "" |} draws now = Some (res, st') ->
        exists sid,
          gen_unique (surveys st) draws = Some sid
          /\ find_one sid (surveys st) = None
          /\ four_digits sid = true
          /\ sid <> ""
          /\ (forall s, In s (surveys st') -> In s (surveys st) \/ surveyId s = sid)).
Proof.
  split; [reflexivity|].
  intros Hdraws res st'. unfold create_survey. simpl.
  destruct (gen_unique (surveys st) draws) as [sid|] eqn:Hg; [|discriminate].
  pose proof Hg as Hg'. apply gen_unique_spec in Hg' as [Hfree [r [Hin ->]]].
  intros Hc. exists (generate_survey_id r).
  split; [reflexivity|]. split; [exact Hfree|].
  split; [apply four_digits_range; rewrite Forall_forall in Hdraws; auto|].
  split; [apply str_of_Z_nonempty|].
  destruct (translate _ vs); injection Hc as _ <-; [|auto].
  intros s Hs. simpl in Hs. apply in_replace_one in Hs as [Hs| ->]; auto.
Qed.

Lemma translate_version_missing_timestamp sid v :
  dict_get "timestamp" v = None ->
  exists e, translate_version int_validate py_format SurveyConfig_validate
              fromisoformat datetime_validate sid v = PExc e.
Proof.
  intros Ht. unfold translate_version.
  destruct (dict_get "version" v); [|eauto].
  destruct (dict_get "config" v) as [[| | | | |d]|]; eauto.
  destruct (SurveyConfig_validate d); [|eauto].
  rewrite Ht. eauto.
Qed.

Lemma translate_all_raises sid vs v :
  In v vs ->
  (exists e, translate_version int_validate py_format SurveyConfig_validate
               fromisoformat datetime_validate sid v = PExc e) ->
  exists e, translate sid vs = PExc e.
Proof.
  intros Hin [e He]. induction vs as [|w vs IH]; [destruct Hin|].
  simpl. destruct Hin as [-> | Hin].
  - rewrite He. eauto.
  - destruct (translate_version _ _ _ _ _ sid w); [|eauto].
    destruct (IH Hin) as [e' ->]. eauto.
Qed.

(** C6 (amended): a submitted version without [timestamp] never
    translates. The translation raises [KeyError "timestamp"] when the record
    has a [version] and a [config] mapping that passes the configuration
    schema; otherwise it raises the exception of that earlier field (a
    [KeyError] for a missing field, a [TypeError] for a [config] that is not
    a mapping, a [ValidationError] for a [config] the schema refuses).
    [create] (when its id generation ends) and [update] of an existing
    survey then answer the generic 500 failure, not a 400 validation
    failure, and write nothing. *)
Theorem missing_timestamp_server_error (st : db) (request_id : option string)
  (vs : list dict) (v : dict) (draws : list Z) (now : datetime) :
  In v vs -> dict_get "timestamp" v = None ->
  (forall sid, translate_version int_validate py_format SurveyConfig_validate
                 fromisoformat datetime_validate sid v
               = PExc (match dict_get "version" v with
                       | None => KeyError "version"
                       | Some _ =>
                           match dict_get "config" v with
                           | None => KeyError "config"
                           | Some (VDict d) =>
                               match SurveyConfig_validate d with
                               | Some _ => KeyError "timestamp"
                               | None => ValidationError
                               end
                           | Some _ => TypeError
                           end
                       end))
  /\ (create st {| cr_versions := vs; cr_surveyId := request_id |} draws now = None
      \/ create st {| cr_versions := vs; cr_surveyId := request_id |} draws now
           = Some (Err ServerError, st))
  /\ (forall sid, find_one sid (surveys st) <> None ->
      update st sid {| ur_versions := vs |} = (Err ServerError, st)).
Proof.
  intros Hin Ht.
  assert (Hraise : forall sid, exists e, translate sid vs = PExc e).
  { intros sid. apply (translate_all_raises sid vs v Hin).
    apply translate_version_missing_timestamp. exact Ht. }
  split; [|split].
  - intros sid. unfold translate_version.
    destruct (dict_get "version" v); [|reflexivity].
    destruct (dict_get "config" v) as [[| | | | |d]|]; try reflexivity.
    destruct (SurveyConfig_validate d); [|reflexivity].
    rewrite Ht. reflexivity.
  - unfold create_survey. simpl cr_surveyId. simpl cr_versions.
    destruct (if py_truthy_opt_str request_id then request_id
              else gen_unique (surveys st) draws) as [sid|]; [|auto].
    right. destruct (Hraise sid) as [e ->]. reflexivity.
  - intros sid Hf. unfold update_survey.
    destruct (find_one sid (surveys st)); [|congruence].
    simpl ur_versions. destruct (Hraise sid) as [e ->]. reflexivity.
Qed.

(** ** Search *)

Lemma parse_pattern_meta_free q :
  meta_free q = true -> parse_pattern q = Some (map ALit (list_ascii_of_string q)).
Proof.
  unfold meta_free. induction q as [|c q IH]; simpl; [reflexivity|].
  intros H. apply andb_true_iff in H as [Hc Hq].
  destruct (Ascii.eqb c ".") eqn:Edot.
  - apply Ascii.eqb_eq in Edot. subst c. discriminate Hc.
  - apply negb_true_iff in Hc. rewrite Hc, (IH Hq). reflexivity.
Qed.

Lemma match_here_lit p s :
  match_here (map ALit p) s = list_prefixb (map lower p) (map lower s).
Proof.
  revert s. induction p as [|a p IH]; intros [|c s]; simpl; try reflexivity.
  rewrite IH. reflexivity.
Qed.

Lemma match_anywhere_lit p s :
  match_anywhere (map ALit p) s = is_substring (map lower p) (map lower s).
Proof.
  induction s as [|c s IH]; simpl.
  - rewrite match_here_lit. reflexivity.
  - rewrite <- IH. change (lower c :: map lower s) with (map lower (c :: s)).
    rewrite <- match_here_lit. reflexivity.
Qed.

Lemma match_anywhere_dot s :
  match_anywhere [AAny] s = existsb (fun c => negb (Ascii.eqb c "010")) s.
Proof.
  induction s as [|c s IH]; simpl; [reflexivity|].
  rewrite IH, andb_true_r. reflexivity.
Qed.

Definition newest_first (a b : StoredSurvey) : Prop := (createdAt b <= createdAt a)%Z.

Lemma insert_desc_perm d l : Permutation (insert_desc d l) (d :: l).
Proof.
  induction l as [|x l IH]; simpl; [reflexivity|].
  destruct (createdAt x <? createdAt d)%Z; [reflexivity|].
  transitivity (x :: d :: l); [constructor; exact IH | apply perm_swap].
Qed.

Lemma fold_insert_perm l acc :
  Permutation (fold_left (fun acc d => insert_desc d acc) l acc) (l ++ acc).
Proof.
  revert acc. induction l as [|d l IH]; intros acc; simpl; [reflexivity|].
  rewrite IH, insert_desc_perm. symmetry. apply Permutation_middle.
Qed.

Lemma sort_desc_perm l : Permutation (sort_desc l) l.
Proof. unfold sort_desc. rewrite fold_insert_perm, app_nil_r. reflexivity. Qed.

Lemma insert_desc_sorted d l : Sorted newest_first l -> Sorted newest_first (insert_desc d l).
Proof.
  induction l as [|x l IH]; simpl; intros H; [repeat constructor|].
  destruct (createdAt x <? createdAt d)%Z eqn:E.
  - apply Z.ltb_lt in E. constructor; [exact H|]. constructor. unfold newest_first. lia.
  - apply Z.ltb_ge in E. inversion H as [|? ? Hl Hhd]; subst.
    constructor; [apply IH; exact Hl|].
    destruct l as [|y l]; simpl.
    + constructor. exact E.
    + destruct (createdAt y <? createdAt d)%Z.
      * constructor. exact E.
      * inversion Hhd; subst. constructor. assumption.
Qed.

Lemma sort_desc_sorted l : Sorted newest_first (sort_desc l).
Proof.
  unfold sort_desc. assert (H : Sorted newest_first (@nil StoredSurvey)) by constructor.
  revert H. generalize (@nil StoredSurvey). induction l as [|d l IH]; intros acc H; simpl.
  - exact H.
  - apply IH, insert_desc_sorted, H.
Qed.

(** C4 (amended): the query is a case-insensitive regular expression. A
    query holding a NUL byte is refused by the store: the 500 failure. Over
    surveyIds in ASCII, an ASCII query free of regex metacharacters and of
    NUL finds exactly the stored surveys whose surveyId contains it as a
    case-insensitive substring, newest first, at most 100, with no error;
    the metacharacter [.] matches any character, so the query ["."] finds
    every survey whose id has a non-newline character. *)
Theorem search_surveys_regex_spec (st : db) (q : string) :
  (has_nul q = true -> search_surveys st q = Some (Err ServerError))
  /\ (ascii_ids st = true ->
      (meta_free q = true -> ascii_text q = true -> has_nul q = false ->
       exists L,
         search_surveys st q =
           Some (Ok {| sl_success := true; sl_surveys := firstn 100 L;
                       sl_total := Z.of_nat (length (firstn 100 L)) |})
         /\ Permutation L (filter (fun s => contains_ci q (surveyId s)) (surveys st))
         /\ Sorted newest_first L)
      /\ (exists L,
         search_surveys st "." =
           Some (Ok {| sl_success := true; sl_surveys := firstn 100 L;
                       sl_total := Z.of_nat (length (firstn 100 L)) |})
         /\ Permutation L (filter (fun s => has_non_newline (surveyId s)) (surveys st))
         /\ Sorted newest_first L)).
Proof.
  split; [intros Hn; unfold search_surveys; rewrite Hn; reflexivity|].
  intros Hids. split.
  - intros Hq Ha Hn.
    exists (sort_desc (filter (fun s => contains_ci q (surveyId s)) (surveys st))).
    split; [|split; [apply sort_desc_perm | apply sort_desc_sorted]].
    unfold search_surveys. rewrite Hn, Ha, Hids. cbn [andb negb].
    rewrite (parse_pattern_meta_free q Hq).
    rewrite (filter_ext _ (fun s => contains_ci q (surveyId s))); [reflexivity|].
    intros s. unfold regex_search_ci, contains_ci. apply match_anywhere_lit.
  - exists (sort_desc (filter (fun s => has_non_newline (surveyId s)) (surveys st))).
    split; [|split; [apply sort_desc_perm | apply sort_desc_sorted]].
    unfold search_surveys.
    replace (has_nul ".") with false by reflexivity.
    replace (ascii_text ".") with true by reflexivity.
    rewrite Hids. cbn [andb negb]. simpl parse_pattern. cbv iota beta.
    rewrite (filter_ext _ (fun s => has_non_newline (surveyId s))); [reflexivity|].
    intros s. unfold regex_search_ci, has_non_newline. apply match_anywhere_dot.
Qed.

(** ** Further properties of the handlers *)

Local Abbreviation hstep :=
  (step int_validate py_format SurveyConfig_validate fromisoformat datetime_validate).

Lemma find_one_none_iff x l : find_one x l = None <-> ~ In x (map surveyId l).
Proof.
  induction l as [|s l IH]; simpl; [tauto|].
  destruct (String.eqb (surveyId s) x) eqn:E.
  - apply String.eqb_eq in E. split; [discriminate|]. intros H. exfalso. auto.
  - apply String.eqb_neq in E. rewrite IH. intuition.
Qed.

Lemma find_one_replace_other x sid doc up l :
  x <> sid -> surveyId doc = sid ->
  find_one x (replace_one sid doc up l) = find_one x l.
Proof.
  intros Hx Hid. induction l as [|s l IH]; simpl.
  - destruct up; simpl; [|reflexivity].
    rewrite Hid. destruct (String.eqb sid x) eqn:E; [|reflexivity].
    apply String.eqb_eq in E. congruence.
  - destruct (String.eqb (surveyId s) sid) eqn:E; simpl.
    + apply String.eqb_eq in E. rewrite Hid.
      destruct (String.eqb sid x) eqn:E1; [apply String.eqb_eq in E1; congruence|].
      rewrite E in *. rewrite E1. reflexivity.
    + rewrite IH. reflexivity.
Qed.

Lemma replace_one_ids sid doc up l :
  surveyId doc = sid ->
  map surveyId (replace_one sid doc up l) =
  match find_one sid l with
  | Some _ => map surveyId l
  | None => if up then (map surveyId l ++ [sid])%list else map surveyId l
  end.
Proof.
  intros Hid. induction l as [|s l IH]; simpl.
  - destruct up; simpl; congruence.
  - destruct (String.eqb (surveyId s) sid) eqn:E; simpl.
    + apply String.eqb_eq in E. congruence.
    + rewrite IH. destruct (find_one sid l); [reflexivity|]. destruct up; reflexivity.
Qed.

Lemma replace_one_nodup sid doc up l :
  surveyId doc = sid -> NoDup (map surveyId l) ->
  NoDup (map surveyId (replace_one sid doc up l)).
Proof.
  intros Hid Hnd. rewrite (replace_one_ids _ _ _ _ Hid).
  destruct (find_one sid l) eqn:E; [exact Hnd|]. destruct up; [|exact Hnd].
  apply find_one_none_iff in E.
  apply Permutation_NoDup with (sid :: map surveyId l).
  - apply Permutation_cons_append.
  - constructor; assumption.
Qed.

Lemma replace_one_absent sid doc up l :
  find_one sid l = None ->
  replace_one sid doc up l = if up then (l ++ [doc])%list else l.
Proof.
  induction l as [|s l IH]; simpl; [destruct up; reflexivity|].
  destruct (String.eqb (surveyId s) sid); [discriminate|].
  intros H. rewrite (IH H). destruct up; reflexivity.
Qed.

Lemma replace_one_length sid doc l :
  find_one sid l <> None -> length (replace_one sid doc false l) = length l.
Proof.
  induction l as [|s l IH]; simpl; [congruence|].
  destruct (String.eqb (surveyId s) sid); simpl; [reflexivity|].
  intros H. rewrite (IH H). reflexivity.
Qed.

Lemma delete_one_nodup sid l :
  NoDup (map surveyId l) -> NoDup (map surveyId (fst (delete_one sid l))).
Proof.
  induction l as [|s l IH]; simpl; [auto|]. intros Hnd. inversion Hnd as [|? ? Hni Hnd']; subst.
  destruct (String.eqb (surveyId s) sid); simpl; [exact Hnd'|].
  destruct (delete_one sid l) as [r n] eqn:Ed. simpl in *.
  constructor; [|apply IH; exact Hnd'].
  intros Hin. apply in_map_iff in Hin as [y [Hy Hyin]]. apply Hni.
  apply in_map_iff. exists y. split; [exact Hy|].
  apply (in_delete_one sid). rewrite Ed. exact Hyin.
Qed.

Lemma delete_one_find_self sid l :
  NoDup (map surveyId l) -> find_one sid (fst (delete_one sid l)) = None.
Proof.
  induction l as [|s l IH]; simpl; [auto|]. intros Hnd. inversion Hnd as [|? ? Hni Hnd']; subst.
  destruct (String.eqb (surveyId s) sid) eqn:E; simpl.
  - apply String.eqb_eq in E. apply find_one_none_iff. rewrite <- E. exact Hni.
  - destruct (delete_one sid l) as [r n] eqn:Ed. simpl in *. rewrite E. apply IH, Hnd'.
Qed.

Lemma delete_one_find_other x sid l :
  x <> sid -> find_one x (fst (delete_one sid l)) = find_one x l.
Proof.
  intros Hx. induction l as [|s l IH]; simpl; [reflexivity|].
  destruct (String.eqb (surveyId s) sid) eqn:E; simpl.
  - apply String.eqb_eq in E. destruct (String.eqb (surveyId s) x) eqn:E1; [|reflexivity].
    apply String.eqb_eq in E1. congruence.
  - destruct (delete_one sid l) as [r n]. simpl in *. rewrite IH. reflexivity.
Qed.

Lemma delete_one_count sid l :
  snd (delete_one sid l) = if find_one sid l then 1%nat else 0%nat.
Proof.
  induction l as [|s l IH]; simpl; [reflexivity|].
  destruct (String.eqb (surveyId s) sid); [reflexivity|].
  destruct (delete_one sid l) as [r n]. exact IH.
Qed.

Lemma delete_one_absent sid l : find_one sid l = None -> fst (delete_one sid l) = l.
Proof.
  induction l as [|s l IH]; simpl; [reflexivity|].
  destruct (String.eqb (surveyId s) sid); [discriminate|].
  intros H. destruct (delete_one sid l) as [r n]. simpl in *. rewrite (IH H). reflexivity.
Qed.

Lemma step_reachable st st' : reach st -> hstep st st' -> reach st'.
Proof.
  intros Hr Hs. destruct Hs; eauto using reachable.
Qed.

(** The handlers never store two surveys with the same surveyId: in every
    reachable store the surveyIds are pairwise distinct. *)
Theorem reachable_ids_unique st :
  reachable int_validate py_format SurveyConfig_validate fromisoformat datetime_validate st ->
  NoDup (map surveyId (surveys st)).
Proof.
  induction 1 as [| st request draws now r st' Hr IH Hc
                  | st sid request r st' Hr IH Hu
                  | st sid r st' Hr IH Hd
                  | st n st' Hr IH Hc
                  | st request rid now r st' Hr IH Hs].
  - constructor.
  - unfold create_survey in Hc.
    destruct (if py_truthy_opt_str (cr_surveyId request) then cr_surveyId request
              else gen_unique (surveys st) draws) as [sid|]; [|discriminate].
    destruct (translate sid (cr_versions request)); injection Hc as _ <-; [|exact IH].
    apply replace_one_nodup; [reflexivity | exact IH].
  - unfold update_survey in Hu. destruct (find_one sid (surveys st)); [|injection Hu as _ <-; exact IH].
    destruct (translate sid (ur_versions request)); injection Hu as _ <-; [|exact IH].
    apply replace_one_nodup; [reflexivity | exact IH].
  - unfold delete_survey in Hd. pose proof (delete_one_nodup sid _ IH) as H.
    destruct (delete_one sid (surveys st)) as [l n].
    destruct (Nat.eqb n 0); injection Hd as _ <-; [exact IH | exact H].
  - injection Hc as _ <-. constructor.
  - unfold submit_survey_response in Hs.
    destruct (find_one _ (surveys st)); injection Hs as _ <-; exact IH.
Qed.

Lemma delete_survey_absent st sid :
  find_one sid (surveys st) = None -> delete_survey st sid = (Err NotFound, st).
Proof.
  intros H. unfold delete_survey. pose proof (delete_one_count sid (surveys st)) as Hc.
  rewrite H in Hc. destruct (delete_one sid (surveys st)) as [l n]. simpl in Hc. subst n.
  reflexivity.
Qed.

(** [delete] on an id with no survey fails with NotFound and writes
    nothing. On a stored survey it succeeds; afterwards [get] and a second
    [delete] on that id fail with NotFound, every other survey is found as
    before and the responses are kept. *)
Theorem delete_survey_spec st sid :
  reach st ->
  (find_one sid (surveys st) = None -> delete_survey st sid = (Err NotFound, st))
  /\ (find_one sid (surveys st) <> None ->
      exists st',
        delete_survey st sid = (Ok tt, st')
        /\ get_survey st' sid = Err NotFound
        /\ delete_survey st' sid = (Err NotFound, st')
        /\ (forall x, x <> sid -> find_one x (surveys st') = find_one x (surveys st))
        /\ responses st' = responses st).
Proof.
  intros Hr. split; [apply delete_survey_absent|]. intros Hf.
  pose proof (reachable_ids_unique _ Hr) as Hnd.
  pose proof (delete_one_find_self sid _ Hnd) as Hself.
  pose proof (delete_one_count sid (surveys st)) as Hcount.
  pose proof (delete_one_find_other) as Hother.
  unfold delete_survey. destruct (delete_one sid (surveys st)) as [l n] eqn:Ed.
  simpl in Hself, Hcount. destruct (find_one sid (surveys st)) as [s|]; [|congruence].
  subst n. simpl. eexists. split; [reflexivity|]. split; [|split; [|split]].
  - unfold get_survey. simpl. rewrite Hself. reflexivity.
  - apply delete_survey_absent. exact Hself.
  - intros x Hx. simpl. specialize (Hother x sid (surveys st) Hx). rewrite Ed in Hother. exact Hother.
  - reflexivity.
Qed.

(** A survey's [createdAt] never changes: after any handler call on a
    reachable store, a surveyId found before and after has the same
    [createdAt]. *)
Theorem created_at_stable st st' sid s s' :
  reach st -> hstep st st' ->
  find_one sid (surveys st) = Some s -> find_one sid (surveys st') = Some s' ->
  createdAt s' = createdAt s.
Proof.
  intros Hr Hs Hf Hf'. destruct Hs as [st request draws now r st' Hc
    | st k request r st' Hu | st k r st' Hd | st n st' Hc | st request rid now r st' Hsub].
  - unfold create_survey in Hc.
    destruct (if py_truthy_opt_str (cr_surveyId request) then cr_surveyId request
              else gen_unique (surveys st) draws) as [k|]; [|discriminate].
    destruct (translate k (cr_versions request)) as [svs|e];
      injection Hc as _ <-; [|congruence].
    simpl in Hf'. destruct (String.eqb_spec sid k) as [->|Hne].
    + rewrite find_one_replace_one in Hf' by auto. injection Hf' as <-. simpl.
      rewrite Hf. reflexivity.
    + rewrite find_one_replace_other in Hf' by auto. congruence.
  - unfold update_survey in Hu. destruct (find_one k (surveys st)) as [e|] eqn:Ek;
      [|injection Hu as _ <-; congruence].
    destruct (translate k (ur_versions request)) as [svs|ex]; injection Hu as _ <-; [|congruence].
    simpl in Hf'. destruct (String.eqb_spec sid k) as [->|Hne].
    + rewrite find_one_replace_one in Hf' by (auto; right; congruence).
      injection Hf' as <-. simpl. congruence.
    + rewrite find_one_replace_other in Hf' by auto. congruence.
  - unfold delete_survey in Hd. pose proof (reachable_ids_unique _ Hr) as Hnd.
    pose proof (delete_one_find_self k _ Hnd) as Hself.
    pose proof (delete_one_find_other sid k (surveys st)) as Hother.
    destruct (delete_one k (surveys st)) as [l n].
    destruct (Nat.eqb n 0); injection Hd as _ <-; [congruence|].
    simpl in *. destruct (String.eqb_spec sid k) as [->|Hne]; [congruence|].
    rewrite (Hother Hne) in Hf'. congruence.
  - injection Hc as _ <-. discriminate.
  - unfold submit_survey_response in Hsub.
    destruct (find_one _ (surveys st)); injection Hsub as _ <-; simpl in Hf'; congruence.
Qed.

(** The response store is append-only: a handler call either leaves it
    as it is or appends exactly one response, and in that case leaves the
    surveys untouched. *)
Theorem responses_append_only st st' :
  step int_validate py_format SurveyConfig_validate fromisoformat datetime_validate st st' ->
  responses st' = responses st
  \/ (exists r, responses st' = (responses st ++ [r])%list /\ surveys st' = surveys st).
Proof.
  intros Hs. destruct Hs as [st request draws now r st' Hc
    | st k request r st' Hu | st k r st' Hd | st n st' Hc | st request rid now r st' Hsub].
  - unfold create_survey in Hc.
    destruct (if py_truthy_opt_str (cr_surveyId request) then cr_surveyId request
              else gen_unique (surveys st) draws) as [k|]; [|discriminate].
    destruct (translate k (cr_versions request)); injection Hc as _ <-; auto.
  - unfold update_survey in Hu. destruct (find_one k (surveys st)); [|injection Hu as _ <-; auto].
    destruct (translate k (ur_versions request)); injection Hu as _ <-; auto.
  - unfold delete_survey in Hd. destruct (delete_one k (surveys st)) as [l n].
    destruct (Nat.eqb n 0); injection Hd as _ <-; auto.
  - injection Hc as _ <-. auto.
  - unfold submit_survey_response in Hsub.
    destruct (find_one _ (surveys st)); injection Hsub as _ <-; [|auto].
    right. eexists. split; reflexivity.
Qed.

(** After a successful [submit] for survey [sid], the responses stored for
    [sid] are the previous ones followed by the new response; the responses
    of every other survey are unchanged. *)
Theorem submit_then_responses_for st request rid now s :
  find_one (sr_surveyId request) (surveys st) = Some s ->
  let st' := snd (submit_survey_response st request rid now) in
  responses_for (sr_surveyId request) (responses st') =
    (responses_for (sr_surveyId request) (responses st) ++
     [{| responseId := rid; r_surveyId := sr_surveyId request;
         r_versionId := sr_versionId request;
         respondentInfo := sr_respondentInfo request;
         answers := sr_answers request; submittedAt := now;
         completionTime := sr_completionTime request |}])%list
  /\ (forall x, x <> sr_surveyId request ->
      responses_for x (responses st') = responses_for x (responses st)).
Proof.
  intros Hf st'. subst st'. unfold submit_survey_response. rewrite Hf. simpl.
  unfold responses_for. split.
  - rewrite filter_app. simpl. rewrite String.eqb_refl. reflexivity.
  - intros x Hx. rewrite filter_app. simpl.
    destruct (String.eqb_spec (sr_surveyId request) x) as [E|E]; [congruence|].
    apply app_nil_r.
Qed.

(** Translation keeps the submitted versions one to one and in order: each
    stored version carries the coerced [version] of its record and the
    versionId [sid ++ "v" ++ f"{version}"] built from the raw value. *)
Theorem translate_all_shape sid vs svs :
  translate sid vs = POk svs ->
  Forall2 (fun v sv => exists raw,
             dict_get "version" v = Some raw
             /\ int_validate raw = Some (version sv)
             /\ versionId sv = generate_version_id py_format sid raw) vs svs.
Proof.
  revert svs. induction vs as [|v vs IH]; intros svs; simpl.
  - intros [= <-]. constructor.
  - destruct (translate_version _ _ _ _ _ sid v) as [sv|e] eqn:Hv; [|discriminate].
    destruct (translate sid vs) as [svs'|e]; [|discriminate].
    intros [= <-]. constructor; [|apply IH; reflexivity].
    unfold translate_version in Hv.
    destruct (dict_get "version" v) as [raw|]; [|discriminate]. exists raw.
    destruct (dict_get "config" v) as [[| | | | |d]|]; try discriminate.
    destruct (SurveyConfig_validate d); [|discriminate].
    destruct (dict_get "timestamp" v) as [ts|]; [|discriminate].
    destruct (match ts with
              | VStr s0 => match fromisoformat (replace_char "Z" "+00:00" s0) with
                           | Some t => POk (Some t) | None => PExc ValueError end
              | _ => POk None end) as [tp|e]; [|discriminate].
    destruct (int_validate raw), (opt_str_validate (dict_get_default "prompt" v)),
             (match tp with Some t => Some t | None => datetime_validate ts end);
      try discriminate.
    injection Hv as <-. simpl. auto.
Qed.

Lemma translate_version_exc_indep sid sid' v e :
  translate_version int_validate py_format SurveyConfig_validate fromisoformat
    datetime_validate sid v = PExc e ->
  translate_version int_validate py_format SurveyConfig_validate fromisoformat
    datetime_validate sid' v = PExc e.
Proof.
  unfold translate_version.
  destruct (dict_get "version" v); [|auto].
  destruct (dict_get "config" v) as [[| | | | |d]|]; auto.
  destruct (SurveyConfig_validate d); [|auto].
  destruct (dict_get "timestamp" v) as [ts|]; [|auto].
  destruct (match ts with
            | VStr s0 => match fromisoformat (replace_char "Z" "+00:00" s0) with
                         | Some t => POk (Some t) | None => PExc ValueError end
            | _ => POk None end) as [tp|e']; [|auto].
  destruct (int_validate _), (opt_str_validate (dict_get_default "prompt" v)),
           (match tp with Some t => Some t | None => datetime_validate ts end);
    auto; discriminate.
Qed.

Lemma translate_all_exc_indep sid sid' vs e :
  translate sid vs = PExc e -> translate sid' vs = PExc e.
Proof.
  induction vs as [|v vs IH]; simpl; [discriminate|].
  destruct (translate_version _ _ _ _ _ sid v) as [sv|e1] eqn:Hv.
  - destruct (translate_version _ _ _ _ _ sid' v) as [sv'|e2] eqn:Hv'.
    + destruct (translate sid vs) as [svs|e3]; [discriminate|].
      intros [= ->]. rewrite (IH eq_refl). reflexivity.
    + apply (translate_version_exc_indep sid' sid) in Hv'. congruence.
  - intros [= ->]. rewrite (translate_version_exc_indep sid sid' v e Hv). reflexivity.
Qed.

(** Validation comes before any write: when translating the submitted
    versions raises (under any surveyId, since a failure does not depend on
    it), [create] (whenever its id generation ends) and [update] of an
    existing survey answer the 500 failure and leave the store unchanged. *)
Theorem translation_failure_no_write st vs sid0 e request_id draws now :
  translate sid0 vs = PExc e ->
  (create st {| cr_versions := vs; cr_surveyId := request_id |} draws now = None
   \/ create st {| cr_versions := vs; cr_surveyId := request_id |} draws now
        = Some (Err ServerError, st))
  /\ (forall sid, update st sid {| ur_versions := vs |} =
        (Err (if find_one sid (surveys st) then ServerError else NotFound), st)).
Proof.
  intros He. split.
  - unfold create_survey. simpl cr_surveyId. simpl cr_versions.
    destruct (if py_truthy_opt_str request_id then request_id
              else gen_unique (surveys st) draws) as [sid|]; [|auto].
    right. rewrite (translate_all_exc_indep sid0 sid vs e He). reflexivity.
  - intros sid. unfold update_survey. destruct (find_one sid (surveys st)); [|reflexivity].
    simpl ur_versions. rewrite (translate_all_exc_indep sid0 sid vs e He). reflexivity.
Qed.


(** ** Create, update and clear *)

Lemma create_ok_inv st request draws now res st' :
  create st request draws now = Some (Ok res, st') ->
  exists s,
    res_survey res = Some s
    /\ (if py_truthy_opt_str (cr_surveyId request) then cr_surveyId request
        else gen_unique (surveys st) draws) = Some (surveyId s)
    /\ createdAt s = match find_one (surveyId s) (surveys st) with
                     | Some e => createdAt e
                     | None => now
                     end
    /\ translate (surveyId s) (cr_versions request) = POk (versions s)
    /\ st' = {| surveys := replace_one (surveyId s) s true (surveys st);
                responses := responses st |}.
Proof.
  unfold create_survey.
  destruct (if py_truthy_opt_str (cr_surveyId request) then cr_surveyId request
            else gen_unique (surveys st) draws) as [sid|] eqn:Hsid; [|discriminate].
  destruct (translate sid (cr_versions request)) as [svs|e] eqn:Ht; [|discriminate].
  intros [= <- <-]. eexists. split; [reflexivity|].
  cbn [surveyId createdAt versions].
  split; [reflexivity|]. split; [reflexivity|]. split; [exact Ht|reflexivity].
Qed.

Lemma replace_one_found_length sid doc up l :
  find_one sid l <> None -> length (replace_one sid doc up l) = length l.
Proof.
  induction l as [|s l IH]; simpl; [congruence|].
  destruct (String.eqb (surveyId s) sid); simpl; [reflexivity|].
  intros H. rewrite (IH H). reflexivity.
Qed.

(** A successful [create] answers the survey it stored: [get] on its id
    then returns exactly that survey, every other surveyId is found as
    before and the responses are untouched. A new id is appended at the
    end of the store with [createdAt] the current time; an id already
    stored keeps the number of stored surveys. *)
Theorem create_then_get st request draws now res st' :
  create st request draws now = Some (Ok res, st') ->
  exists s,
    res_survey res = Some s
    /\ get_survey st' (surveyId s)
       = Ok {| res_success := true; res_survey := Some s; res_message := None |}
    /\ (forall x, x <> surveyId s -> find_one x (surveys st') = find_one x (surveys st))
    /\ responses st' = responses st
    /\ (find_one (surveyId s) (surveys st) = None ->
        surveys st' = (surveys st ++ [s])%list /\ createdAt s = now)
    /\ (find_one (surveyId s) (surveys st) <> None ->
        length (surveys st') = length (surveys st)).
Proof.
  intros Hc. destruct (create_ok_inv _ _ _ _ _ _ Hc) as [s [Hres [_ [Hcr [_ ->]]]]].
  exists s. split; [exact Hres|]. cbn [surveys responses].
  split; [|split; [|split; [|split]]].
  - unfold get_survey. cbn [surveys].
    rewrite find_one_replace_one; [reflexivity | reflexivity | left; reflexivity].
  - intros x Hx. apply find_one_replace_other; auto.
  - reflexivity.
  - intros Hn. rewrite Hn in Hcr. split; [|exact Hcr].
    rewrite (replace_one_absent _ _ _ _ Hn). reflexivity.
  - apply replace_one_found_length.
Qed.

(** [update] of a stored survey with versions that translate replaces the
    survey in place: the answer and the stored survey carry the surveyId,
    the old [createdAt] and the translated versions; [get] then returns it,
    and the number of stored surveys, every other survey and the responses
    are unchanged. *)
Theorem update_existing_spec st sid e vs svs :
  find_one sid (surveys st) = Some e ->
  translate sid vs = POk svs ->
  let s := {| surveyId := sid; createdAt := createdAt e; versions := svs |} in
  exists st',
    update st sid {| ur_versions := vs |} =
      (Ok {| res_success := true; res_survey := Some s;
             res_message := Some ("Survey " ++ sid ++ " updated successfully") |}, st')
    /\ get_survey st' sid
       = Ok {| res_success := true; res_survey := Some s; res_message := None |}
    /\ length (surveys st') = length (surveys st)
    /\ (forall x, x <> sid -> find_one x (surveys st') = find_one x (surveys st))
    /\ responses st' = responses st.
Proof.
  intros Hf Ht s. unfold update_survey. rewrite Hf. cbn [ur_versions]. rewrite Ht.
  eexists. split; [reflexivity|]. cbn [surveys responses].
  split; [|split; [|split]].
  - unfold get_survey. cbn [surveys].
    rewrite find_one_replace_one; [reflexivity | reflexivity | right; congruence].
  - apply replace_one_length. congruence.
  - intros x Hx. apply find_one_replace_other; auto.
  - reflexivity.
Qed.

(** [clear] reports the number of stored surveys and empties the survey
    store only: afterwards every [get] and every [submit] fails with
    NotFound, [analyze] fails with BadRequest or NotFound, the statistics
    count no survey and no version, and the stored responses are kept. *)
Theorem clear_all_spec st json_size format_mb :
  let '(n, st') := clear_all_surveys st in
  n = length (surveys st)
  /\ (forall sid, get_survey st' sid = Err NotFound)
  /\ (forall request rid now,
        submit_survey_response st' request rid now = (Err NotFound, st'))
  /\ (forall csv, analyze_historical_surveys st' csv = Err BadRequest
                  \/ analyze_historical_surveys st' csv = Err NotFound)
  /\ totalSurveys (get_storage_stats json_size format_mb st') = 0%Z
  /\ totalVersions (get_storage_stats json_size format_mb st') = 0%Z
  /\ responses st' = responses st.
Proof.
  unfold clear_all_surveys.
  split; [reflexivity|]. split; [reflexivity|]. split; [reflexivity|].
  split; [|split; [reflexivity|split; reflexivity]].
  intros csv. unfold analyze_historical_surveys. cbv zeta.
  destruct (Nat.eqb (length (parse_ids csv)) 0); [left; reflexivity|].
  destruct (Nat.ltb 5 (length (parse_ids csv))); [left; reflexivity|].
  right. rewrite (proj2 (collect_bundles_nil _ _)); [reflexivity|].
  apply Forall_forall. reflexivity.
Qed.

(** ** [analyze_historical_surveys] *)

Lemma collect_bundles_length st ids : (length (collect_bundles st ids) <= length ids)%nat.
Proof.
  induction ids as [|sid ids IH]; simpl; [lia|].
  destruct (find_one sid (surveys st)); simpl; lia.
Qed.

Lemma collect_bundles_sound st ids :
  Forall (fun b => find_one (surveyId (b_survey b)) (surveys st) = Some (b_survey b)
                   /\ b_responses b = responses_for (surveyId (b_survey b)) (responses st))
         (collect_bundles st ids).
Proof.
  induction ids as [|sid ids IH]; simpl; [constructor|].
  destruct (find_one sid (surveys st)) as [s|] eqn:Hf; [|exact IH].
  constructor; [|exact IH]. cbn [b_survey b_responses].
  pose proof (find_one_some _ _ _ Hf) as [-> _]. auto.
Qed.

(** A successful [analyze] returns between one and five bundles and counts
    them; each bundle holds the survey stored under its own surveyId with
    exactly the responses stored for that id. *)
Theorem analyze_ok_spec st csv r :
  analyze_historical_surveys st csv = Ok r ->
  an_success r = true
  /\ (1 <= an_count r <= 5)%Z
  /\ an_count r = Z.of_nat (length (an_data r))
  /\ Forall (fun b => find_one (surveyId (b_survey b)) (surveys st) = Some (b_survey b)
                      /\ b_responses b = responses_for (surveyId (b_survey b)) (responses st))
            (an_data r).
Proof.
  unfold analyze_historical_surveys. cbv zeta.
  destruct (Nat.eqb (length (parse_ids csv)) 0); [discriminate|].
  destruct (Nat.ltb 5 (length (parse_ids csv))) eqn:E5; [discriminate|].
  destruct (Nat.eqb (length (collect_bundles st (parse_ids csv))) 0) eqn:Ec; [discriminate|].
  intros [= <-]. cbn [an_success an_count an_data].
  apply Nat.ltb_ge in E5. apply Nat.eqb_neq in Ec.
  pose proof (collect_bundles_length st (parse_ids csv)).
  split; [reflexivity|]. split; [lia|]. split; [reflexivity|].
  apply collect_bundles_sound.
Qed.

Lemma split_on_no_sep c s :
  Forall (fun p => ~ In c (list_ascii_of_string p)) (split_on c s).
Proof.
  induction s as [|c' s IH]; simpl.
  - constructor; [simpl; tauto | constructor].
  - destruct (Ascii.eqb_spec c c') as [E|E].
    + constructor; [simpl; tauto | exact IH].
    + destruct (split_on c s) as [|h t].
      * constructor; [|constructor]. simpl. intros [H|H]; [congruence | exact H].
      * inversion IH as [|? ? Hh Ht]; subst. constructor; [|exact Ht].
        simpl. intros [H|H]; [congruence | exact (Hh H)].
Qed.

Lemma prefix_rest_spec p l r : prefix_rest p l = Some r -> l = (p ++ r)%list.
Proof.
  revert l. induction p as [|a p IH]; intros l H.
  - simpl in H. injection H as <-. reflexivity.
  - destruct l as [|b l]; [discriminate|]. simpl in H.
    destruct (Ascii.eqb_spec a b) as [<-|]; [|discriminate].
    rewrite (IH l H). reflexivity.
Qed.

Lemma prefix_rest_app p t k r :
  prefix_rest p t = Some r -> prefix_rest p (t ++ k) = Some (r ++ k)%list.
Proof.
  revert t. induction p as [|a p IH]; intros t H.
  - simpl in H. injection H as <-. reflexivity.
  - destruct t as [|b t]; [discriminate|]. simpl in H |- *.
    destruct (Ascii.eqb a b); [apply IH, H | discriminate].
Qed.

Lemma first_some_spec ws l r :
  first_some ws l = Some r -> exists w, In w ws /\ l = (w ++ r)%list.
Proof.
  induction ws as [|w ws IH]; simpl; [discriminate|].
  destruct (prefix_rest w l) as [r'|] eqn:E.
  - intros [= <-]. exists w. split; [left; reflexivity|]. apply prefix_rest_spec, E.
  - intros H. destruct (IH H) as [w' [Hin Hl]]. exists w'. auto.
Qed.

Lemma first_some_app_none ws t k :
  first_some ws (t ++ k) = None -> first_some ws t = None.
Proof.
  induction ws as [|w ws IH]; simpl; [reflexivity|].
  destruct (prefix_rest w t) as [r|] eqn:E.
  - rewrite (prefix_rest_app _ _ k _ E). discriminate.
  - destruct (prefix_rest w (t ++ k)); [discriminate|]. exact IH.
Qed.

Lemma first_some_nil ws : (forall w, In w ws -> w <> []) -> first_some ws [] = None.
Proof.
  induction ws as [|w ws IH]; simpl; [reflexivity|]. intros Hne.
  destruct w as [|a w]; [exfalso; apply (Hne []); auto|]. simpl. auto.
Qed.

Lemma lstrip_seqs_suffix ws fuel l : exists k, l = (k ++ lstrip_seqs ws fuel l)%list.
Proof.
  revert l. induction fuel as [|f IH]; intros l; simpl; [exists []; reflexivity|].
  destruct (first_some ws l) as [r|] eqn:E; [|exists []; reflexivity].
  destruct (first_some_spec _ _ _ E) as [w [_ ->]]. destruct (IH r) as [k Hk].
  exists (w ++ k)%list. rewrite <- app_assoc, <- Hk. reflexivity.
Qed.

Lemma lstrip_seqs_done ws fuel l :
  (forall w, In w ws -> w <> []) -> (length l <= fuel)%nat ->
  first_some ws (lstrip_seqs ws fuel l) = None.
Proof.
  intros Hne. revert l. induction fuel as [|f IH]; intros l Hl; simpl.
  - destruct l; [apply first_some_nil, Hne | simpl in Hl; lia].
  - destruct (first_some ws l) as [r|] eqn:E; [|exact E].
    destruct (first_some_spec _ _ _ E) as [w [Hw ->]]. apply IH.
    rewrite length_app in Hl. destruct w as [|a w]; [exfalso; exact (Hne [] Hw eq_refl)|].
    simpl in Hl. lia.
Qed.

Lemma lstrip_seqs_stop ws fuel l : first_some ws l = None -> lstrip_seqs ws fuel l = l.
Proof. destruct fuel; simpl; [reflexivity|]. intros ->. reflexivity. Qed.

Lemma py_spaces_nonempty : forall w, In w py_spaces -> w <> [].
Proof.
  intros w Hw. unfold py_spaces in Hw.
  repeat (destruct Hw as [<-|Hw]; [discriminate|]). destruct Hw.
Qed.

Lemma py_spaces_rev_nonempty : forall w, In w (map (@rev ascii) py_spaces) -> w <> [].
Proof.
  intros w Hw. apply in_map_iff in Hw as [w' [<- Hw']].
  intros H. apply (py_spaces_nonempty w' Hw'). rewrite <- (rev_involutive w'), H. reflexivity.
Qed.

Lemma py_strip_chars s x :
  In x (list_ascii_of_string (py_strip s)) -> In x (list_ascii_of_string s).
Proof.
  unfold py_strip, rstrip_l, lstrip_l. rewrite list_ascii_of_string_of_list_ascii.
  intros H. apply in_rev in H.
  destruct (lstrip_seqs_suffix (map (@rev ascii) py_spaces)
              (length (lstrip_seqs py_spaces (length (list_ascii_of_string s))
                         (list_ascii_of_string s)))
              (rev (lstrip_seqs py_spaces (length (list_ascii_of_string s))
                      (list_ascii_of_string s)))) as [k1 Hk1].
  destruct (lstrip_seqs_suffix py_spaces (length (list_ascii_of_string s))
              (list_ascii_of_string s)) as [k2 Hk2].
  rewrite Hk2. apply in_or_app. right. apply in_rev. rewrite Hk1.
  apply in_or_app. right. exact H.
Qed.

Lemma py_strip_idem s : py_strip (py_strip s) = py_strip s.
Proof.
  unfold py_strip. rewrite list_ascii_of_string_of_list_ascii.
  set (rws := map (@rev ascii) py_spaces).
  set (u := lstrip_l (list_ascii_of_string s)).
  assert (Hu : first_some py_spaces u = None)
    by (apply lstrip_seqs_done; [apply py_spaces_nonempty | lia]).
  set (v := lstrip_seqs rws (length u) (rev u)).
  assert (Hv : first_some rws v = None)
    by (apply lstrip_seqs_done; [apply py_spaces_rev_nonempty | rewrite length_rev; lia]).
  destruct (lstrip_seqs_suffix rws (length u) (rev u)) as [k Hk]. fold v in Hk.
  assert (Hut : u = (rev v ++ rev k)%list)
    by (rewrite <- rev_app_distr, <- Hk, rev_involutive; reflexivity).
  assert (Ht : first_some py_spaces (rev v) = None)
    by (apply (first_some_app_none _ _ (rev k)); rewrite <- Hut; exact Hu).
  assert (E : rstrip_l u = rev v) by reflexivity.
  rewrite E. f_equal.
  unfold lstrip_l at 1. rewrite (lstrip_seqs_stop _ _ _ Ht).
  unfold rstrip_l. rewrite rev_involutive, (lstrip_seqs_stop _ _ _ Hv). reflexivity.
Qed.

(** Every id [analyze] looks up is clean: non-empty, free of commas, and
    without leading or trailing whitespace. *)
Theorem parse_ids_clean csv :
  Forall (fun sid => sid <> ""
                     /\ ~ In ","%char (list_ascii_of_string sid)
                     /\ py_strip sid = sid) (parse_ids csv).
Proof.
  apply Forall_forall. intros x Hx. unfold parse_ids in Hx.
  apply in_map_iff in Hx as [y [<- Hy]]. apply filter_In in Hy as [Hy Hne].
  split; [apply negb_true_iff, String.eqb_neq in Hne; exact Hne|].
  split; [|apply py_strip_idem].
  intros Hin. apply py_strip_chars in Hin.
  pose proof (split_on_no_sep ","%char csv) as Hs. rewrite Forall_forall in Hs.
  exact (Hs y Hy Hin).
Qed.

(** ** Listing *)

Lemma sorted_firstn {A} (R : A -> A -> Prop) n l :
  Sorted R l -> Sorted R (firstn n l).
Proof.
  revert l. induction n as [|n IH]; intros [|a l] H; simpl; auto.
  apply Sorted_inv in H as [H1 H2]. constructor; [apply IH, H1|].
  destruct n as [|n], l as [|b l]; simpl; constructor. inversion H2; assumption.
Qed.

Lemma sorted_skipn {A} (R : A -> A -> Prop) n l :
  Sorted R l -> Sorted R (skipn n l).
Proof.
  revert l. induction n as [|n IH]; intros [|a l] H; simpl; auto.
  apply IH. apply Sorted_inv in H. tauto.
Qed.

Lemma in_firstn_l {A} n (l : list A) x : In x (firstn n l) -> In x l.
Proof.
  intros H. rewrite <- (firstn_skipn n l). apply in_or_app. left. exact H.
Qed.

Lemma in_skipn_l {A} n (l : list A) x : In x (skipn n l) -> In x l.
Proof.
  intros H. rewrite <- (firstn_skipn n l). apply in_or_app. right. exact H.
Qed.

Lemma firstn_app_skipn {A} a b (l : list A) :
  (firstn a l ++ firstn b (skipn a l))%list = firstn (a + b) l.
Proof.
  revert l. induction a as [|a IH]; intros l; [reflexivity|].
  destruct l as [|x l]; simpl; [destruct b; reflexivity|]. rewrite IH. reflexivity.
Qed.

Lemma get_all_surveys_ok st skip limit :
  (0 <= skip <= bson_int64_max)%Z -> (0 < limit <= bson_int64_max)%Z ->
  get_all_surveys st skip limit =
    Some (Ok {| sl_success := true;
                sl_surveys := firstn (Z.to_nat limit)
                                (skipn (Z.to_nat skip) (sort_desc (surveys st)));
                sl_total := Z.of_nat (length (surveys st)) |}).
Proof.
  intros Hs Hl. unfold get_all_surveys.
  replace ((skip <? 0)%Z || (limit <=? 0)%Z) with false
    by (symmetry; apply orb_false_iff; split; [apply Z.ltb_ge | apply Z.leb_gt]; lia).
  replace ((bson_int64_max <? skip)%Z || (bson_int64_max <? limit)%Z) with false
    by (symmetry; apply orb_false_iff; split; apply Z.ltb_ge; lia).
  rewrite firstn_firstn, Nat.min_id. reflexivity.
Qed.

(** A listing with [skip >= 0] and [limit > 0] fails with the 500 failure
    when [skip] or [limit] does not fit a 64-bit BSON integer. Otherwise it
    succeeds; its total is the number of stored surveys, not the page size;
    it holds [min limit (total - skip)] stored surveys, newest first; the
    first page with a limit at least the total lists every stored survey. *)
Theorem get_all_surveys_page st skip limit :
  (0 <= skip)%Z -> (0 < limit)%Z ->
  ((bson_int64_max < skip \/ bson_int64_max < limit)%Z ->
   get_all_surveys st skip limit = Some (Err ServerError))
  /\ ((skip <= bson_int64_max)%Z -> (limit <= bson_int64_max)%Z ->
      exists p,
        get_all_surveys st skip limit = Some (Ok p)
        /\ sl_success p = true
        /\ sl_total p = Z.of_nat (length (surveys st))
        /\ length (sl_surveys p)
           = Nat.min (Z.to_nat limit) (length (surveys st) - Z.to_nat skip)
        /\ Sorted newest_first (sl_surveys p)
        /\ incl (sl_surveys p) (surveys st)
        /\ (skip = 0%Z -> (length (surveys st) <= Z.to_nat limit)%nat ->
            Permutation (sl_surveys p) (surveys st))).
Proof.
  intros Hs Hl. split.
  - intros Hbig. unfold get_all_surveys.
    replace ((skip <? 0)%Z || (limit <=? 0)%Z) with false
      by (symmetry; apply orb_false_iff; split; [apply Z.ltb_ge | apply Z.leb_gt]; lia).
    replace ((bson_int64_max <? skip)%Z || (bson_int64_max <? limit)%Z) with true
      by (symmetry; apply orb_true_iff;
          destruct Hbig; [left | right]; apply Z.ltb_lt; assumption).
    reflexivity.
  - intros Hs' Hl'. rewrite (get_all_surveys_ok st skip limit) by lia.
    eexists. split; [reflexivity|]. cbn [sl_success sl_total sl_surveys].
    pose proof (Permutation_length (sort_desc_perm (surveys st))) as Hlen.
    split; [reflexivity|]. split; [reflexivity|].
    split; [|split; [|split]].
    + rewrite length_firstn, length_skipn, Hlen. reflexivity.
    + apply sorted_firstn, sorted_skipn, sort_desc_sorted.
    + intros x Hx. apply in_firstn_l, in_skipn_l in Hx.
      exact (Permutation_in _ (sort_desc_perm _) Hx).
    + intros -> Hle.
      replace (skipn (Z.to_nat 0) (sort_desc (surveys st))) with (sort_desc (surveys st))
        by reflexivity.
      rewrite firstn_all2 by (rewrite Hlen; exact Hle). apply sort_desc_perm.
Qed.

(** Pages compose: when the [createdAt] values are distinct (so that the
    sort order is unique) and [k + m] fits a 64-bit BSON integer, the page at
    [skip = 0] of size [k] followed by the page at [skip = k] of size [m] is
    the page at [skip = 0] of size [k + m]. *)
Theorem get_all_surveys_pages st k m :
  (0 < k)%Z -> (0 < m)%Z -> (k + m <= bson_int64_max)%Z ->
  NoDup (map createdAt (surveys st)) ->
  exists p1 p2 p,
    get_all_surveys st 0 k = Some (Ok p1)
    /\ get_all_surveys st k m = Some (Ok p2)
    /\ get_all_surveys st 0 (k + m) = Some (Ok p)
    /\ (sl_surveys p1 ++ sl_surveys p2)%list = sl_surveys p.
Proof.
  intros Hk Hm Hkm _.
  rewrite (get_all_surveys_ok st 0 k), (get_all_surveys_ok st k m),
    (get_all_surveys_ok st 0 (k + m)) by lia.
  do 3 eexists. split; [reflexivity|]. split; [reflexivity|]. split; [reflexivity|].
  cbn [sl_surveys].
  replace (Z.to_nat (k + m)) with (Z.to_nat k + Z.to_nat m)%nat by lia.
  change (Z.to_nat 0) with 0%nat. cbn [skipn]. apply firstn_app_skipn.
Qed.

(** ** Storage statistics *)

Lemma list_sum_replace_one (f : StoredSurvey -> nat) sid doc up l o :
  find_one sid l = Some o ->
  (list_sum (map f (replace_one sid doc up l)) + f o = list_sum (map f l) + f doc)%nat.
Proof.
  induction l as [|s l IH]; simpl; [discriminate|].
  destruct (String.eqb (surveyId s) sid).
  - intros [= <-]. simpl. lia.
  - intros H. simpl. specialize (IH H). lia.
Qed.

(** The statistics follow a successful [create]: a new surveyId adds one
    survey, its versions, and its entry at the end of the list; a stored
    surveyId keeps the survey count and trades the old version count for
    the new one. *)
Theorem stats_after_create json_size format_mb st request draws now res st' s :
  create st request draws now = Some (Ok res, st') ->
  res_survey res = Some s ->
  let before := get_storage_stats json_size format_mb st in
  let after := get_storage_stats json_size format_mb st' in
  match find_one (surveyId s) (surveys st) with
  | None =>
      totalSurveys after = (totalSurveys before + 1)%Z
      /\ totalVersions after = (totalVersions before + Z.of_nat (length (versions s)))%Z
      /\ stats_surveys after = (stats_surveys before ++ [survey_info s])%list
  | Some old =>
      totalSurveys after = totalSurveys before
      /\ (totalVersions after + Z.of_nat (length (versions old))
          = totalVersions before + Z.of_nat (length (versions s)))%Z
  end.
Proof.
  intros Hc Hs before after. subst before after.
  destruct (create_ok_inv _ _ _ _ _ _ Hc) as [s0 [Hs0 [_ [_ [_ ->]]]]].
  rewrite Hs in Hs0. injection Hs0 as <-.
  unfold get_storage_stats. cbn [surveys totalSurveys totalVersions stats_surveys].
  destruct (find_one (surveyId s) (surveys st)) as [old|] eqn:Hf.
  - split.
    + rewrite replace_one_found_length by congruence. reflexivity.
    + pose proof (list_sum_replace_one (fun s => length (versions s)) _ s true _ old Hf) as H.
      cbv beta in H. lia.
  - replace (replace_one (surveyId s) s true (surveys st)) with (surveys st ++ [s])%list
      by (rewrite (replace_one_absent _ _ _ _ Hf); reflexivity).
    rewrite length_app, !map_app, list_sum_app. cbn [map list_sum fold_right length].
    split; [lia|]. split; [lia|reflexivity].
Qed.

End Proofs.

(* ================================================================== *)
(** * Witnesses and counterexamples *)

Local Open Scope Z_scope.

Lemma create_existing_replaces_versions_witness :
  let survey := {| surveyId := "4821"; createdAt := 100; versions := [Sample.sv2] |} in
  exists st',
    create_survey Sample.int_validate Sample.py_format Sample.SurveyConfig_validate
      Sample.fromisoformat Sample.datetime_validate Sample.st1
      {| cr_versions := [Sample.v2]; cr_surveyId := Some "4821" |} [] 200
      = Some (Ok {| res_success := true; res_survey := Some survey;
                    res_message := Some ("Survey " ++ "4821" ++ " saved successfully") |}, st')
    /\ find_one "4821" (surveys st') = Some survey
    /\ get_survey st' "4821" = Ok {| res_success := true; res_survey := Some survey;
                                    res_message := None |}.
Proof.
  apply (create_existing_replaces_versions Sample.int_validate Sample.py_format
           Sample.SurveyConfig_validate Sample.fromisoformat Sample.datetime_validate
           Sample.st1 "4821" Sample.survey1 [Sample.v2] [Sample.sv2] [] 200).
  - eapply (reach_create _ _ _ _ _ empty_db
              {| cr_versions := [Sample.v1]; cr_surveyId := None |} [4821%Z] 100%Z).
    + apply reach_empty.
    + reflexivity.
  - reflexivity.
  - reflexivity.
Defined.

Lemma update_missing_not_found_witness :
  update_survey Sample.int_validate Sample.py_format Sample.SurveyConfig_validate
    Sample.fromisoformat Sample.datetime_validate Sample.st1 "1234"
    {| ur_versions := [Sample.v2] |} = (Err NotFound, Sample.st1)
  /\ get_survey Sample.st1 "1234" = Err NotFound.
Proof.
  apply (update_missing_not_found Sample.int_validate Sample.py_format
           Sample.SurveyConfig_validate Sample.fromisoformat Sample.datetime_validate).
  reflexivity.
Defined.

Lemma search_surveys_regex_spec_witness :
  search_surveys Sample.store_4821 (String "000" "82") = Some (Err ServerError)
  /\ (exists L,
     search_surveys Sample.store_4821 "82" =
       Some (Ok {| sl_success := true; sl_surveys := firstn 100 L;
                   sl_total := Z.of_nat (length (firstn 100 L)) |})
     /\ Permutation L (filter (fun s => contains_ci "82" (surveyId s))
                              (surveys Sample.store_4821))
     /\ Sorted newest_first L).
Proof.
  split.
  - apply (search_surveys_regex_spec Sample.store_4821 (String "000" "82")). reflexivity.
  - apply (search_surveys_regex_spec Sample.store_4821 "82"); reflexivity.
Defined.

(** C4 as stated fails: the query ["."] is not a substring of ["4821"], yet
    the search returns survey 4821. *)
Lemma search_dot_not_literal :
  contains_ci "." "4821" = false
  /\ search_surveys Sample.store_4821 "." =
     Some (Ok {| sl_success := true; sl_surveys := [Sample.survey_4821]; sl_total := 1 |}).
Proof. split; reflexivity. Qed.

Lemma missing_timestamp_server_error_witness :
  (forall sid,
     translate_version Sample.int_validate Sample.py_format Sample.SurveyConfig_validate
       Sample.fromisoformat Sample.datetime_validate sid Sample.v_no_timestamp
     = PExc (KeyError "timestamp"))
  /\ (create_survey Sample.int_validate Sample.py_format Sample.SurveyConfig_validate
        Sample.fromisoformat Sample.datetime_validate Sample.st1
        {| cr_versions := [Sample.v_no_timestamp]; cr_surveyId := Some "1234" |} [] 0 = None
      \/ create_survey Sample.int_validate Sample.py_format Sample.SurveyConfig_validate
           Sample.fromisoformat Sample.datetime_validate Sample.st1
           {| cr_versions := [Sample.v_no_timestamp]; cr_surveyId := Some "1234" |} [] 0
         = Some (Err ServerError, Sample.st1))
  /\ (forall sid, find_one sid (surveys Sample.st1) <> None ->
      update_survey Sample.int_validate Sample.py_format Sample.SurveyConfig_validate
        Sample.fromisoformat Sample.datetime_validate Sample.st1 sid
        {| ur_versions := [Sample.v_no_timestamp] |} = (Err ServerError, Sample.st1)).
Proof.
  apply (missing_timestamp_server_error Sample.int_validate Sample.py_format
           Sample.SurveyConfig_validate Sample.fromisoformat Sample.datetime_validate
           Sample.st1 (Some "1234") [Sample.v_no_timestamp] Sample.v_no_timestamp [] 0).
  - left. reflexivity.
  - reflexivity.
Defined.

(** C6 as stated fails: without [timestamp] the translation raises a
    [KeyError] (not a validation error) and [create] answers the 500
    failure. *)
Lemma missing_timestamp_is_500 :
  translate_version Sample.int_validate Sample.py_format Sample.SurveyConfig_validate
    Sample.fromisoformat Sample.datetime_validate "1234" Sample.v_no_timestamp
    = PExc (KeyError "timestamp")
  /\ create_survey Sample.int_validate Sample.py_format Sample.SurveyConfig_validate
       Sample.fromisoformat Sample.datetime_validate empty_db
       {| cr_versions := [Sample.v_no_timestamp]; cr_surveyId := Some "1234" |} [] 0
     = Some (Err ServerError, empty_db).
Proof. split; reflexivity. Qed.

(** The spec's concrete scenario: a create without surveyId and one version
    dated "2024-01-01T00:00:00Z" stores a 4-digit id, version 1 with
    versionId "{id}v1" and the parsed instant. *)
Example create_scenario :
  create_survey Sample.int_validate Sample.py_format Sample.SurveyConfig_validate
    Sample.fromisoformat Sample.datetime_validate empty_db
    {| cr_versions := [Sample.v1]; cr_surveyId := None |} [4821%Z] 100
  = Some (Ok {| res_success := true; res_survey := Some Sample.survey1;
                res_message := Some "Survey 4821 saved successfully" |}, Sample.st1).
Proof. reflexivity. Qed.

(** The spec's examples of [analyzeHistorical]: no id, six ids, and two
    known ids around an unknown one. *)
Example analyze_examples :
  let survey_1000 := {| surveyId := "1000"; createdAt := 5; versions := [] |} in
  let st := {| surveys := [Sample.survey1; survey_1000]; responses := [] |} in
  analyze_historical_surveys st " , " = Err BadRequest
  /\ analyze_historical_surveys st "1,2,3,4,5,6" = Err BadRequest
  /\ analyze_historical_surveys st "4821, 9999 ,1000" =
     Ok {| an_success := true;
           an_data := [{| b_survey := Sample.survey1; b_responses := [] |};
                       {| b_survey := survey_1000; b_responses := [] |}];
           an_count := 2 |}.
Proof. repeat split. Qed.

(** [str.strip] removes the no-break space U+00A0 (UTF-8 bytes 194 160):
    an entry made of it alone is dropped, and an id followed by it is
    found. *)
Example analyze_unicode_space :
  analyze_historical_surveys Sample.st1 (String "194"%char (String "160"%char "")) = Err BadRequest
  /\ analyze_historical_surveys Sample.st1
       ("4821" ++ String "194"%char (String "160"%char "")) =
     Ok {| an_success := true;
           an_data := [{| b_survey := Sample.survey1; b_responses := [] |}];
           an_count := 1 |}.
Proof. split; vm_compute; reflexivity. Qed.

(** A non-ASCII query, U+00E4 as UTF-8 bytes 195 164, is outside the modelled search. *)
Example search_non_ascii_unmodelled :
  search_surveys Sample.store_4821 (String "195"%char (String "164"%char "")) = None.
Proof. vm_compute. reflexivity. Qed.

(** [generate_version_id] on the source's own example. *)
Example generate_version_id_example :
  generate_version_id Sample.py_format "1232" (VInt 1) = "1232v1".
Proof. reflexivity. Qed.

(** ** Instances of the further properties *)

Lemma reachable_ids_unique_witness :
  let sv1000 := {| version := 2; versionId := "1000v2"; config := Sample.empty_config;
                   prompt := None; timestamp := 1704153600 |} in
  let s1000 := {| surveyId := "1000"; createdAt := 150; versions := [sv1000] |} in
  let st2 := {| surveys := [Sample.survey1; s1000]; responses := [] |} in
  let s4821 := {| surveyId := "4821"; createdAt := 100; versions := [Sample.sv2] |} in
  NoDup (map surveyId (surveys {| surveys := [s4821; s1000]; responses := [] |})).
Proof.
  intros sv1000 s1000 st2 s4821.
  apply (reachable_ids_unique Sample.int_validate Sample.py_format
           Sample.SurveyConfig_validate Sample.fromisoformat Sample.datetime_validate).
  (* re-create of the stored id 4821 *)
  eapply (reach_create _ _ _ _ _ st2
            {| cr_versions := [Sample.v2]; cr_surveyId := Some "4821" |} [] 200).
  - (* a generated id: the draw 4821 is taken, the draw 1000 is free *)
    eapply (reach_create _ _ _ _ _ Sample.st1
              {| cr_versions := [Sample.v2]; cr_surveyId := None |} [4821; 1000] 150).
    + eapply (reach_create _ _ _ _ _ empty_db
                {| cr_versions := [Sample.v1]; cr_surveyId := None |} [4821] 100).
      * apply reach_empty.
      * reflexivity.
    + reflexivity.
  - reflexivity.
Defined.

Lemma delete_survey_spec_witness :
  exists st',
    delete_survey Sample.st1 "4821" = (Ok tt, st')
    /\ get_survey st' "4821" = Err NotFound
    /\ delete_survey st' "4821" = (Err NotFound, st').
Proof.
  assert (Hf : find_one "4821" (surveys Sample.st1) <> None) by (vm_compute; discriminate).
  destruct (delete_survey_spec Sample.int_validate Sample.py_format
              Sample.SurveyConfig_validate Sample.fromisoformat Sample.datetime_validate
              Sample.st1 "4821") as [_ H].
  - eapply (reach_create _ _ _ _ _ empty_db
              {| cr_versions := [Sample.v1]; cr_surveyId := None |} [4821%Z] 100%Z).
    + apply reach_empty.
    + reflexivity.
  - destruct (H Hf) as [st' [H1 [H2 [H3 _]]]]. exists st'. auto.
Defined.

Lemma created_at_stable_witness :
  createdAt {| surveyId := "4821"; createdAt := 100; versions := [Sample.sv2] |}
  = createdAt Sample.survey1.
Proof.
  apply (created_at_stable Sample.int_validate Sample.py_format
           Sample.SurveyConfig_validate Sample.fromisoformat Sample.datetime_validate
           Sample.st1
           {| surveys := [{| surveyId := "4821"; createdAt := 100; versions := [Sample.sv2] |}];
              responses := [] |}
           "4821").
  - eapply (reach_create _ _ _ _ _ empty_db
              {| cr_versions := [Sample.v1]; cr_surveyId := None |} [4821%Z] 100%Z).
    + apply reach_empty.
    + reflexivity.
  - eapply (step_create _ _ _ _ _ Sample.st1
              {| cr_versions := [Sample.v2]; cr_surveyId := Some "4821" |} [] 200).
    reflexivity.
  - reflexivity.
  - reflexivity.
Defined.

Lemma responses_append_only_witness :
  let request := {| sr_surveyId := "4821"; sr_versionId := "4821v1";
                    sr_respondentInfo := None; sr_answers := [("q1", VStr "yes")];
                    sr_completionTime := Some 30 |} in
  let st' := snd (submit_survey_response Sample.st1 request "r1" 300) in
  responses st' = responses Sample.st1
  \/ (exists r, responses st' = (responses Sample.st1 ++ [r])%list
                /\ surveys st' = surveys Sample.st1).
Proof.
  intros request st'. unfold st'.
  apply (responses_append_only Sample.int_validate Sample.py_format
           Sample.SurveyConfig_validate Sample.fromisoformat Sample.datetime_validate).
  eapply (step_submit _ _ _ _ _ Sample.st1 request "r1" 300).
  apply surjective_pairing.
Defined.

Lemma submit_then_responses_for_witness :
  let request := {| sr_surveyId := "4821"; sr_versionId := "4821v1";
                    sr_respondentInfo := None; sr_answers := [("q1", VStr "yes")];
                    sr_completionTime := Some 30 |} in
  responses_for "4821" (responses (snd (submit_survey_response Sample.st1 request "r1" 300)))
  = [{| responseId := "r1"; r_surveyId := "4821"; r_versionId := "4821v1";
        respondentInfo := None; answers := [("q1", VStr "yes")]; submittedAt := 300;
        completionTime := Some 30 |}].
Proof.
  intros request.
  assert (Hf : find_one (sr_surveyId request) (surveys Sample.st1) = Some Sample.survey1)
    by reflexivity.
  destruct (submit_then_responses_for Sample.st1 request "r1" 300 Sample.survey1 Hf) as [H _].
  exact H.
Defined.

Lemma translate_all_shape_witness :
  Forall2 (fun v sv => exists raw,
             dict_get "version" v = Some raw
             /\ Sample.int_validate raw = Some (version sv)
             /\ versionId sv = generate_version_id Sample.py_format "4821" raw)
          [Sample.v1; Sample.v2] [Sample.sv1; Sample.sv2].
Proof.
  apply (translate_all_shape Sample.int_validate Sample.py_format
           Sample.SurveyConfig_validate Sample.fromisoformat Sample.datetime_validate).
  reflexivity.
Defined.

Lemma translation_failure_no_write_witness :
  update_survey Sample.int_validate Sample.py_format Sample.SurveyConfig_validate
    Sample.fromisoformat Sample.datetime_validate Sample.st1 "4821"
    {| ur_versions := [Sample.v_no_timestamp] |} = (Err ServerError, Sample.st1).
Proof.
  assert (He : translate_all Sample.int_validate Sample.py_format Sample.SurveyConfig_validate
                 Sample.fromisoformat Sample.datetime_validate "1234" [Sample.v_no_timestamp]
               = PExc (KeyError "timestamp")) by reflexivity.
  destruct (translation_failure_no_write Sample.int_validate Sample.py_format
              Sample.SurveyConfig_validate Sample.fromisoformat Sample.datetime_validate
              Sample.st1 [Sample.v_no_timestamp] "1234" (KeyError "timestamp") None [] 0 He)
    as [_ H].
  exact (H "4821").
Defined.

Lemma create_then_get_witness :
  let sv := {| version := 2; versionId := "7v2"; config := Sample.empty_config;
               prompt := None; timestamp := 1704153600 |} in
  let s := {| surveyId := "7"; createdAt := 200; versions := [sv] |} in
  get_survey {| surveys := [Sample.survey1; s]; responses := [] |} "7"
  = Ok {| res_success := true; res_survey := Some s; res_message := None |}.
Proof.
  intros sv s.
  assert (Hc : create_survey Sample.int_validate Sample.py_format Sample.SurveyConfig_validate
                 Sample.fromisoformat Sample.datetime_validate Sample.st1
                 {| cr_versions := [Sample.v2]; cr_surveyId := Some "7" |} [] 200
               = Some (Ok {| res_success := true; res_survey := Some s;
                             res_message := Some "Survey 7 saved successfully" |},
                       {| surveys := [Sample.survey1; s]; responses := [] |}))
    by reflexivity.
  destruct (create_then_get Sample.int_validate Sample.py_format
              Sample.SurveyConfig_validate Sample.fromisoformat Sample.datetime_validate
              _ _ _ _ _ _ Hc) as [s' [Hres [Hget _]]].
  cbn [res_survey] in Hres. injection Hres as <-. exact Hget.
Defined.

Lemma update_existing_spec_witness :
  exists st',
    update_survey Sample.int_validate Sample.py_format Sample.SurveyConfig_validate
      Sample.fromisoformat Sample.datetime_validate Sample.st1 "4821"
      {| ur_versions := [Sample.v2] |}
    = (Ok {| res_success := true;
             res_survey := Some {| surveyId := "4821"; createdAt := 100;
                                   versions := [Sample.sv2] |};
             res_message := Some "Survey 4821 updated successfully" |}, st')
    /\ length (surveys st') = 1%nat.
Proof.
  assert (Hf : find_one "4821" (surveys Sample.st1) = Some Sample.survey1) by reflexivity.
  assert (Ht : translate_all Sample.int_validate Sample.py_format Sample.SurveyConfig_validate
                 Sample.fromisoformat Sample.datetime_validate "4821" [Sample.v2]
               = POk [Sample.sv2]) by reflexivity.
  destruct (update_existing_spec Sample.int_validate Sample.py_format
              Sample.SurveyConfig_validate Sample.fromisoformat Sample.datetime_validate
              Sample.st1 "4821" Sample.survey1 [Sample.v2] [Sample.sv2] Hf Ht)
    as [st' [H1 [_ [H3 _]]]].
  exists st'. split; [exact H1 | exact H3].
Defined.

Lemma analyze_ok_spec_witness :
  let r := {| an_success := true;
              an_data := [{| b_survey := Sample.survey1; b_responses := [] |}];
              an_count := 1 |} in
  (1 <= an_count r <= 5) /\ an_count r = Z.of_nat (length (an_data r)).
Proof.
  intros r.
  assert (Ha : analyze_historical_surveys Sample.st1 " 4821 ,, 9999" = Ok r) by reflexivity.
  destruct (analyze_ok_spec Sample.st1 " 4821 ,, 9999" r Ha) as [_ [H1 [H2 _]]].
  split; [exact H1 | exact H2].
Defined.

Lemma get_all_surveys_page_witness :
  let st := {| surveys := [{| surveyId := "1000"; createdAt := 5; versions := [] |};
                           Sample.survey1]; responses := [] |} in
  get_all_surveys st 0 (bson_int64_max + 1) = Some (Err ServerError)
  /\ exists p,
    get_all_surveys st 0 1 = Some (Ok p)
    /\ sl_total p = 2
    /\ length (sl_surveys p) = 1%nat
    /\ Sorted newest_first (sl_surveys p).
Proof.
  intros st. split.
  - assert (Hs : 0 <= 0) by lia.
    assert (Hl : 0 < bson_int64_max + 1) by (unfold bson_int64_max; lia).
    destruct (get_all_surveys_page st 0 (bson_int64_max + 1) Hs Hl) as [H _].
    apply H. right. lia.
  - assert (Hs : 0 <= 0) by lia. assert (Hl : 0 < 1) by lia.
    destruct (get_all_surveys_page st 0 1 Hs Hl) as [_ H].
    assert (Hs' : 0 <= bson_int64_max) by (unfold bson_int64_max; lia).
    assert (Hl' : 1 <= bson_int64_max) by (unfold bson_int64_max; lia).
    destruct (H Hs' Hl') as [p [H1 [_ [H2 [H3 [H4 _]]]]]].
    exists p. split; [exact H1|]. split; [exact H2|]. split; [exact H3 | exact H4].
Defined.

Lemma get_all_surveys_pages_witness :
  let st := {| surveys := [{| surveyId := "1000"; createdAt := 5; versions := [] |};
                           Sample.survey1]; responses := [] |} in
  exists p1 p2 p,
    get_all_surveys st 0 1 = Some (Ok p1)
    /\ get_all_surveys st 1 1 = Some (Ok p2)
    /\ get_all_surveys st 0 (1 + 1) = Some (Ok p)
    /\ (sl_surveys p1 ++ sl_surveys p2)%list = sl_surveys p.
Proof.
  intros st.
  assert (Hk : 0 < 1) by lia.
  assert (Hkm : 1 + 1 <= bson_int64_max) by (unfold bson_int64_max; lia).
  assert (Hd : NoDup (map createdAt (surveys st))) by (simpl; repeat constructor; simpl; lia).
  exact (get_all_surveys_pages st 1 1 Hk Hk Hkm Hd).
Defined.

Lemma stats_after_create_witness :
  let sv := {| version := 2; versionId := "7v2"; config := Sample.empty_config;
               prompt := None; timestamp := 1704153600 |} in
  let s := {| surveyId := "7"; createdAt := 200; versions := [sv] |} in
  let st' := {| surveys := [Sample.survey1; s]; responses := [] |} in
  let json_size := fun l : list StoredSurvey => Z.of_nat (length l) in
  let format_mb := fun _ : Z => "0.00" in
  totalSurveys (get_storage_stats json_size format_mb st')
  = totalSurveys (get_storage_stats json_size format_mb Sample.st1) + 1
  /\ totalVersions (get_storage_stats json_size format_mb st')
     = totalVersions (get_storage_stats json_size format_mb Sample.st1) + 1.
Proof.
  intros sv s st' json_size format_mb.
  assert (Hc : create_survey Sample.int_validate Sample.py_format Sample.SurveyConfig_validate
                 Sample.fromisoformat Sample.datetime_validate Sample.st1
                 {| cr_versions := [Sample.v2]; cr_surveyId := Some "7" |} [] 200
               = Some (Ok {| res_success := true; res_survey := Some s;
                             res_message := Some "Survey 7 saved successfully" |}, st'))
    by reflexivity.
  assert (Hs : res_survey {| res_success := true; res_survey := Some s;
                             res_message := Some "Survey 7 saved successfully" |} = Some s)
    by reflexivity.
  pose proof (stats_after_create Sample.int_validate Sample.py_format
                Sample.SurveyConfig_validate Sample.fromisoformat Sample.datetime_validate
                json_size format_mb _ _ _ _ _ _ s Hc Hs) as H.
  destruct H as [H1 [H2 _]]. split; [exact H1 | exact H2].
Defined.
